(** * Detection inference services of clappper: a shallow embedding

    The two stdin/stdout inference wrappers
    [resources/damage-detection/inference_roof.py] and
    [resources/room-detection/inference.py] are embedded as Rocq functions.

    Conventions of the embedding:
    - a Python [bytes] object is a [list byte];
    - a Python [str] is the [string] holding its UTF-8 encoding (strict
      decoding is injective, so a decoded identifier is represented by the
      very bytes it was decoded from);
    - a Python [float] is an exact rational of [Q] in the two services
      (idealised arithmetic); the amounts of the cost estimator depend on
      how binary64 rounds, so the estimator is embedded once more on
      binary64 floats, in [Roof64], and its amounts are established there;
      the confidence threshold, which is only passed
      on to the detector, is kept as the raw 32-bit pattern it is unpacked
      from;
    - a statement that may raise returns a [result]; [try]/[except Exception]
      is a match on it;
    - the third-party libraries (PIL, numpy, OpenCV, ultralytics, OpenAI) and
      the file system are fields of a [World] record: each call is a function
      returning a value or raising;
    - only writes of the program itself to standard output are recorded, as
      the list of JSON documents printed; the diagnostics written to the
      error stream are left out. *)

From Stdlib Require Import ZArith QArith Qround String Ascii List Lia Lqa.
From Stdlib Require Import DecimalString DecimalZ.
From Stdlib.Strings Require Import Byte.
From Stdlib Require PrimFloat FloatOps SpecFloat Uint63.
From stdpp Require Import base gmap strings.
Import ListNotations.
Open Scope string_scope.
Set Warnings "-register-all,-clear-no-such-hyp,-inexact-float".

(** ** Python runtime pieces used by both services *)

Module Py.

Definition bytes := list byte.

(** The exception classes the code raises or meets. [UnicodeDecodeError] is a
    subclass of [ValueError]; every class below derives from [Exception].
    [OSError] is what [Path.exists] raises for a path the operating system
    refuses to look at (a component of 256 bytes or more, for one). *)
Inductive exn_class :=
| ValueError
| UnicodeDecodeError
| ZeroDivisionError
| RecursionError
| OSError
| Exception
| LibraryError.

Record exn := mkExn { exn_cls : exn_class; exn_msg : string }.

Definition is_ValueError (e : exn) : bool :=
  match exn_cls e with
  | ValueError | UnicodeDecodeError => true
  | _ => false
  end.

Inductive result (A : Type) :=
| Ok (a : A)
| Raise (e : exn).
Arguments Ok {A} a.
Arguments Raise {A} e.

#[global] Instance result_ret : MRet result := fun A a => Ok a.
#[global] Instance result_bind : MBind result := fun A B k r =>
  match r with
  | Ok a => k a
  | Raise e => Raise e
  end.

Definition raises {A} (r : result A) : bool :=
  match r with Ok _ => false | Raise _ => true end.

(** [stream.read(n)]: up to [n] bytes, and the rest of the stream. *)
Definition read (n : nat) (stream : bytes) : bytes * bytes :=
  (take n stream, drop n stream).

(** [int.from_bytes(bs, 'big')]. *)
Definition int_from_bytes_big (bs : bytes) : N :=
  fold_left (fun acc b => (acc * 256 + Byte.to_N b)%N) bs 0%N.

(** Strict UTF-8 well-formedness, as checked by [bytes.decode('utf-8')]:
    no overlong forms, no surrogates, nothing above U+10FFFF. *)
Definition in_range (lo hi : N) (b : byte) : bool :=
  ((lo <=? Byte.to_N b) && (Byte.to_N b <=? hi))%N.

Definition cont (b : byte) : bool := in_range 128 191 b.

Fixpoint utf8_valid (bs : bytes) : bool :=
  match bs with
  | [] => true
  | b0 :: r0 =>
    if in_range 0 127 b0 then utf8_valid r0
    else if in_range 194 223 b0 then
      match r0 with
      | b1 :: r1 => cont b1 && utf8_valid r1
      | _ => false
      end
    else if in_range 224 239 b0 then
      match r0 with
      | b1 :: b2 :: r2 =>
        (if in_range 224 224 b0 then in_range 160 191 b1
         else if in_range 237 237 b0 then in_range 128 159 b1
         else cont b1)
        && cont b2 && utf8_valid r2
      | _ => false
      end
    else if in_range 240 244 b0 then
      match r0 with
      | b1 :: b2 :: b3 :: r3 =>
        (if in_range 240 240 b0 then in_range 144 191 b1
         else if in_range 244 244 b0 then in_range 128 143 b1
         else cont b1)
        && cont b2 && cont b3 && utf8_valid r3
      | _ => false
      end
    else false
  end.

(** [bs.decode('utf-8')]. *)
Definition decode_utf8 (bs : bytes) : result string :=
  if utf8_valid bs then Ok (string_of_list_byte bs)
  else Raise (mkExn UnicodeDecodeError
                "'utf-8' codec can't decode bytes: invalid data").

(** [s.encode('utf-8')]. *)
Definition encode_utf8 (s : string) : bytes := list_byte_of_string s.

(** [str(n)] for an integer. *)
Definition str_of_Z (n : Z) : string := NilZero.string_of_int (Z.to_int n).

(** Python's [round] on a float: to the nearest integer, ties to even. *)
Definition round_half_even (q : Q) : Z :=
  let f := Qfloor q in
  let r := (q - inject_Z f)%Q in
  match (r ?= 1 # 2)%Q with
  | Lt => f
  | Gt => (f + 1)%Z
  | Eq => if Z.even f then f else (f + 1)%Z
  end.

(** [round(q, 2)]. *)
Definition round2 (q : Q) : Q := (round_half_even (q * 100) # 100)%Q.

(** [int(q)] on a float: truncation toward zero. *)
Definition int_of_float (q : Q) : Z := Z.quot (Qnum q) (Zpos (Qden q)).

(** JSON values, as handed to [json.dumps]; an object keeps its keys in
    insertion order, as a Python dict does. *)
Inductive json :=
| JNull
| JInt (z : Z)
| JFloat (q : Q)
| JStr (s : string)
| JList (l : list json)
| JObj (kvs : list (string * json)).

Fixpoint assoc (k : string) (kvs : list (string * json)) : option json :=
  match kvs with
  | [] => None
  | (k', v) :: rest => if String.eqb k k' then Some v else assoc k rest
  end.

(** [doc[k]] for a document that is an object. *)
Definition field (k : string) (doc : json) : option json :=
  match doc with
  | JObj kvs => assoc k kvs
  | _ => None
  end.

Definition keys (doc : json) : list string :=
  match doc with
  | JObj kvs => map fst kvs
  | _ => []
  end.

Definition json_of_option {A} (f : A -> json) (o : option A) : json :=
  match o with
  | Some a => f a
  | None => JNull
  end.

(** The document printed by the [except Exception] clause of [main]:
    [{'error': str(e), 'traceback': traceback.format_exc()}]; [format_exc]
    gives the text of the traceback of the exception being handled. *)
Definition error_document (format_exc : exn -> string) (e : exn) : json :=
  JObj [("error", JStr (exn_msg e)); ("traceback", JStr (format_exc e))].

End Py.
Import Py.

(** ** Model resolution and cache (the same code in both services)

    [load_model] of the two files differs only in the identifiers of its
    priority list and of its [MODELS] table, and in [find_model_path]; it is
    embedded once, over these. The process-wide dict [loaded_models] is
    threaded as a [gmap]. Python bounds the depth of the call stack: the first
    argument is the number of frames still available to [load_model], and
    running out of them raises [RecursionError]. [find_model_path] is called
    outside the [try] block: what it raises leaves [load_model] as it is. *)

(** A [pathlib.Path]: the components joined by [/]. *)
Definition Path := list string.

(** A loaded detector: the object returned by [YOLO(path)]. *)
Inductive Model := YoloModel (uid : nat).

Definition recursion_error : exn :=
  mkExn RecursionError "maximum recursion depth exceeded".

(** The exception raised when no identifier of the priority list is found on
    disk (line 137). *)
Definition no_default_model : exn :=
  mkExn Exception "No default model found - bundled model missing!".

Section Resolver.
Variable find_model_path : string -> result (option Path).
Variable MODELS : gmap string string.
Variable fallback_ids : list string.
Variable YOLO : Path -> result Model.

(** The loop [for fallback_id in [...]: if find_model_path(fallback_id):
    return load_model(fallback_id)] picks the first identifier of the list
    whose weights are found; a lookup that raises ends the loop. *)
Fixpoint first_available (ids : list string) : result (option string) :=
  match ids with
  | [] => Ok None
  | fallback_id :: ids' =>
    match find_model_path fallback_id with
    | Raise e => Raise e
    | Ok (Some _) => Ok (Some fallback_id)
    | Ok None => first_available ids'
    end
  end.

Fixpoint load_model (depth : nat) (model_id : string)
         (loaded_models : gmap string Model)
  : result Model * gmap string Model :=
  match depth with
  | O => (Raise recursion_error, loaded_models)
  | S depth' =>
    match loaded_models !! model_id with
    | Some model => (Ok model, loaded_models)
    | None =>
      if decide (model_id = "default") then
        match first_available fallback_ids with
        | Raise e => (Raise e, loaded_models)
        | Ok (Some fallback_id) => load_model depth' fallback_id loaded_models
        | Ok None => (Raise no_default_model, loaded_models)
        end
      else
        match (match MODELS !! model_id with
               | None => find_model_path model_id
               | Some _ => find_model_path model_id
               end) with
        | Raise e => (Raise e, loaded_models)
        | Ok None => load_model depth' "default" loaded_models
        | Ok (Some model_path) =>
          match YOLO model_path with
          | Ok model => (Ok model, <[model_id := model]> loaded_models)
          | Raise e =>
            if decide (model_id <> "default")
            then load_model depth' "default" loaded_models
            else (Raise (mkExn Exception
                           ("Model loading failed: " ++ exn_msg e)),
                  loaded_models)
          end
        end
    end
  end.
End Resolver.

(** ** The damage-detection service, [inference_roof.py] *)

Module Roof.

Definition DAMAGE_CLASSES (cls_id : Z) : option string :=
  match cls_id with
  | 0%Z => Some "missing_shingle"
  | 1%Z => Some "lifted_shingle"
  | 2%Z => Some "torn_shingle"
  | 3%Z => Some "hail_bruise"
  | _ => None
  end.

Definition SETUP_MIN_USD : Q := 150.
Definition CLASS_BASE_COSTS (cls : string) : option Q :=
  if String.eqb cls "missing_shingle" then Some 125%Q
  else if String.eqb cls "lifted_shingle" then Some 125%Q
  else if String.eqb cls "torn_shingle" then Some 125%Q
  else if String.eqb cls "hail_bruise" then Some 90%Q
  else None.
Definition SEVERITY_MULTIPLIER : Q := 400.
Definition DISPOSAL_USD : Q := 25.
Definition CONTINGENCY_PCT : Q := 1 # 10.
Definition LABOR_PCT : Q := 6 # 10.

Definition MODELS : gmap string string :=
  {[ "roof_damage_nano_300ep" := "Roof Damage Detection - Nano - 300 epochs";
     "roof_damage_small_200ep" := "Roof Damage Detection - Small - 200 epochs";
     "default" := "Default model (roof_damage_nano_300ep)" ]}.

Definition FALLBACK_IDS : list string :=
  ["roof_damage_nano_300ep"; "roof_damage_small_200ep"].

(** One element of [r.boxes]: [box.xyxy[0].tolist()], [box.conf[0]] and
    [box.cls[0]]. *)
Record Box := { xyxy : Q * Q * Q * Q; box_conf : Q; box_cls : Z }.

(** One element of the list the detector returns. *)
Record Results := { boxes : list Box; results_uid : nat }.

(** A decoded [PIL.Image]. *)
Inductive PILImage := PilImage (uid : nat).

(** The threshold handed to the detector: the four bytes unpacked as a
    big-endian float32, or the literal [0.2]. *)
Inductive Confidence := Float32 (bits : bytes) | Default_0_2.

Record Detection := {
  d_cls : string;
  d_bbox : Q * Q * Q * Q;
  d_conf : Q;
  d_severity : Q;
  d_affected_area_pct : Q
}.

Record CostEstimate := {
  labor_usd : Q;
  materials_usd : Q;
  disposal_usd : Q;
  contingency_usd : Q;
  total_usd : Q;
  assumptions : string
}.

(** The dict returned by [perform_inference]. *)
Record Response := {
  detections : list Detection;
  cost_estimate : CostEstimate;
  image_width : Z;
  image_height : Z;
  annotated_image : option string
}.

(** What the service does not compute itself. *)
Record World := {
  (** [os.environ.get('BUNDLED_MODELS_PATH')], as a path when set *)
  BUNDLED_MODELS_PATH : option Path;
  (** [Path.exists]: whether the path is there, or the [OSError] raised
      when the operating system refuses the path *)
  path_exists : Path -> result bool;
  (** [ultralytics.YOLO(path)] *)
  YOLO : Path -> result Model;
  (** [Image.open(BytesIO(image_data))] *)
  Image_open : bytes -> result PILImage;
  (** [np.array(pil_image).shape] *)
  np_array_shape : PILImage -> result (list Z);
  (** [model(pil_image, conf=conf_threshold, verbose=False)] *)
  model_call : Model -> PILImage -> Confidence -> result (list Results);
  (** lines 364-375: [r.plot()], colour conversion, PNG and base64 encoding *)
  plot_png_base64 : Results -> result string;
  (** whether [from openai import OpenAI] succeeded *)
  OPENAI_AVAILABLE : bool;
  (** [os.environ.get('OPENAI_API_KEY')] *)
  OPENAI_API_KEY : option string;
  (** lines 198-255: the chat completion request, and the reply with its
      code fence stripped and parsed by [json.loads] *)
  gpt4_vision_reply :
    string -> string -> list Detection -> Z -> Z -> result json;
  (** [traceback.format_exc()] in the handler of [main]: the rendering of
      the call stack at the point where the exception was raised. The stack
      is decided by the frames the interpreter allows and by the request;
      these are the first two arguments. *)
  format_exc : nat -> bytes -> exn -> string;
  (** the frames the interpreter still allows when [perform_inference]
      calls [load_model] (1000 by default, less those of the callers) *)
  recursion_limit : nat
}.

Definition find_model_path (W : World) (model_id : string)
  : result (option Path) :=
  match BUNDLED_MODELS_PATH W with
  | Some bundled =>
    let bundled_path := (bundled ++ [model_id; "weights"; "best.pt"])%list in
    found ← path_exists W bundled_path;
    if found : bool then Ok (Some bundled_path) else Ok None
  | None => Ok None
  end.

Definition load_model (W : World) :=
  load_model (find_model_path W) MODELS FALLBACK_IDS (YOLO W).

Definition Qltb (a b : Q) : bool := negb (Qle_bool b a).

(** [min(1.0, x)] and [max(0.0, x)] as Python evaluates them: the first
    argument is kept unless the second is strictly smaller (larger). *)
Definition min_1 (x : Q) : Q := if Qltb x 1 then x else 1%Q.
Definition max_0 (x : Q) : Q := if Qltb 0 x then x else 0%Q.

Definition calculate_severity (bbox : Q * Q * Q * Q)
           (img_width img_height : Z) : Q :=
  let '(x, y, w, h) := bbox in
  let bbox_area := (w * h)%Q in
  let img_area := (img_width * img_height)%Z in
  if (0 <? img_area)%Z then min_1 (max_0 (bbox_area / inject_Z img_area))
  else 0%Q.

Definition REQUIRED_FIELDS : list string :=
  ["labor_usd"; "materials_usd"; "disposal_usd"; "contingency_usd";
   "total_usd"; "assumptions"].

Definition estimate_cost_with_gpt_vision (W : World) (image_base64 : string)
           (detections : list Detection) (img_width img_height : Z)
  : option json :=
  let attempt : result (option json) :=
    if negb (OPENAI_AVAILABLE W) then Ok None
    else match OPENAI_API_KEY W with
         | None | Some "" => Ok None
         | Some api_key =>
           cost_data ← gpt4_vision_reply W api_key image_base64 detections
                         img_width img_height;
           if forallb (fun f => bool_decide (is_Some (field f cost_data)))
                      REQUIRED_FIELDS
           then Ok (Some cost_data) else Ok None
         end in
  match attempt with
  | Ok r => r
  | Raise _ => None
  end.

Definition disposal_classes : list string :=
  ["missing_shingle"; "torn_shingle"].

Definition in_disposal_classes (cls : string) : bool :=
  existsb (String.eqb cls) disposal_classes.

Definition estimate_cost (detections : list Detection) : CostEstimate :=
  let has_findings := (0 <? length detections)%nat in
  let setup_min := if has_findings then SETUP_MIN_USD else 0%Q in
  let disposal :=
    if existsb (fun d => in_disposal_classes (d_cls d)) detections
    then DISPOSAL_USD else 0%Q in
  let subtotal :=
    fold_left (fun subtotal d =>
                 let cls := d_cls d in
                 let sev := d_severity d in
                 let base := default 100%Q (CLASS_BASE_COSTS cls) in
                 (subtotal + (base + SEVERITY_MULTIPLIER * sev))%Q)
              detections setup_min in
  let contingency := (CONTINGENCY_PCT * subtotal)%Q in
  let total := (subtotal + disposal + contingency)%Q in
  {| labor_usd := round2 (subtotal * LABOR_PCT);
     materials_usd := round2 (subtotal * (1 - LABOR_PCT));
     disposal_usd := round2 disposal;
     contingency_usd := round2 contingency;
     total_usd := round2 total;
     assumptions := "Heuristic fallback: class base + area severity + setup minimum + 10% contingency." |}.

Definition unknown_class (cls_id : Z) : string :=
  "unknown_" ++ str_of_Z cls_id.

(** The body of the loop [for box in r.boxes] (lines 338-356). *)
Definition parse_box (img_width img_height : Z) (box : Box) : Detection :=
  let '(x1, y1, x2, y2) := xyxy box in
  let conf := box_conf box in
  let cls_id := box_cls box in
  let cls_name := default (unknown_class cls_id) (DAMAGE_CLASSES cls_id) in
  let bbox := (x1, y1, x2 - x1, y2 - y1)%Q in
  let severity := calculate_severity bbox img_width img_height in
  {| d_cls := cls_name;
     d_bbox := bbox;
     d_conf := conf;
     d_severity := severity;
     d_affected_area_pct := round2 (severity * 100) |}.

(** Lines 314-317: [img_height, img_width = img_array.shape] for a
    grayscale image, [= img_array.shape[:2]] otherwise; unpacking fewer than
    two values raises [ValueError]. *)
Definition image_dimensions (shape : list Z) : result (Z * Z) :=
  if (length shape =? 2)%nat then
    match shape with
    | [h; w] => Ok (h, w)
    | _ => Raise (mkExn ValueError "not enough values to unpack")
    end
  else
    match take 2 shape with
    | [h; w] => Ok (h, w)
    | _ => Raise (mkExn ValueError "not enough values to unpack")
    end.

(** The overlay block (lines 361-379), with its own [try]/[except]. *)
Definition generate_annotated_image (W : World) (r : Results)
  : option string :=
  match plot_png_base64 W r with
  | Ok annotated_image => Some annotated_image
  | Raise _ => None
  end.

(** [perform_inference]; its [except Exception] clause re-raises, so the
    [try] is the identity on results. *)
Definition perform_inference (W : World) (image_data : bytes)
           (model_id : string) (conf_threshold : Confidence)
           (loaded_models : gmap string Model)
  : result Response * gmap string Model :=
  let '(loaded, loaded_models) :=
    load_model W (recursion_limit W) model_id loaded_models in
  (model ← loaded;
   pil_image ← Image_open W image_data;
   shape ← np_array_shape W pil_image;
   '(img_height, img_width) ← image_dimensions shape;
   results ← model_call W model pil_image conf_threshold;
   match results with
   | [] =>
     Ok {| detections := [];
           cost_estimate := estimate_cost [];
           image_width := img_width;
           image_height := img_height;
           annotated_image := None |}
   | r :: _ =>
     let detections := map (parse_box img_width img_height) (boxes r) in
     let annotated_image := generate_annotated_image W r in
     let cost_estimate := estimate_cost detections in
     Ok {| detections := detections;
           cost_estimate := cost_estimate;
           image_width := img_width;
           image_height := img_height;
           annotated_image := annotated_image |}
   end,
   loaded_models).

(** Lines 84-104 of [main]: the request is read off standard input. *)
Definition read_request (stdin : bytes)
  : result (string * Confidence * bytes) :=
  let '(model_id_length_bytes, stdin) := read 4 stdin in
  if negb (length model_id_length_bytes =? 4)%nat
  then Raise (mkExn ValueError "Invalid input format")
  else
    let model_id_length := int_from_bytes_big model_id_length_bytes in
    let '(model_id_bytes, stdin) := read (N.to_nat model_id_length) stdin in
    model_id ← match model_id_bytes with
                | [] => Ok "default"
                | _ => decode_utf8 model_id_bytes
                end;
    let '(confidence_bytes, stdin) := read 4 stdin in
    let confidence :=
      if (length confidence_bytes =? 4)%nat then Float32 confidence_bytes
      else Default_0_2 in
    let image_data := stdin in
    match image_data with
    | [] => Raise (mkExn ValueError "No image data provided")
    | _ => Ok (model_id, confidence, image_data)
    end.

Definition json_of_quad (b : Q * Q * Q * Q) : json :=
  let '(a0, a1, a2, a3) := b in JList [JFloat a0; JFloat a1; JFloat a2; JFloat a3].

Definition json_of_detection (d : Detection) : json :=
  JObj [("cls", JStr (d_cls d));
        ("bbox", json_of_quad (d_bbox d));
        ("conf", JFloat (d_conf d));
        ("severity", JFloat (d_severity d));
        ("affected_area_pct", JFloat (d_affected_area_pct d))].

Definition json_of_cost (c : CostEstimate) : json :=
  JObj [("labor_usd", JFloat (labor_usd c));
        ("materials_usd", JFloat (materials_usd c));
        ("disposal_usd", JFloat (disposal_usd c));
        ("contingency_usd", JFloat (contingency_usd c));
        ("total_usd", JFloat (total_usd c));
        ("assumptions", JStr (assumptions c))].

(** The dict literal of lines 384-390 (and 325-331). *)
Definition json_of_response (r : Response) : json :=
  JObj [("detections", JList (map json_of_detection (detections r)));
        ("cost_estimate", json_of_cost (cost_estimate r));
        ("image_width", JInt (image_width r));
        ("image_height", JInt (image_height r));
        ("annotated_image", json_of_option JStr (annotated_image r))].

(** [main]: what the process has written on standard output when it ends.
    The cache [loaded_models] is empty when the process starts. *)
Definition main (W : World) (stdin : bytes) : list json :=
  let attempt :=
    '(model_id, confidence, image_data) ← read_request stdin;
    result ← (perform_inference W image_data model_id confidence ∅).1;
    Ok [json_of_response result] in
  match attempt with
  | Ok stdout => stdout
  | Raise e => [error_document (format_exc W (recursion_limit W) stdin) e]
  end.

End Roof.

(** ** The cost estimator on binary64

    Python's [float] is IEEE 754 binary64, and the amounts [estimate_cost]
    returns depend on how each operation rounds: [0.1 * 240.25] is a little
    more than 24.025, and rounds to 24.03. Here the estimator is embedded on
    Rocq's primitive floats, which are binary64 with round-to-nearest-even,
    so that its amounts are computed bit for bit. *)

Module Py64.
Import PrimFloat FloatOps SpecFloat.

(** The magnitude [m * 2^e] of a finite float, as a rational. *)
Definition magnitude (m : positive) (e : Z) : Q :=
  match e with
  | Z0 => inject_Z (Zpos m)
  | Zpos p => inject_Z (Zpos m * 2 ^ Zpos p)
  | Zneg p => Qmake (Zpos m) (2 ^ p)%positive
  end.

(** [round(x, 2)] on a float, as CPython computes it: the exact value of [x]
    is rounded to two decimals, ties to even, and the decimal obtained is
    converted to the nearest float; the sign is kept, an infinity or a NaN is
    returned as it is. The decimal is [n / 100] for an integer [n]; below
    [2^53] the integer is a float and the float quotient is the float nearest
    to the decimal; from [2^53 / 100] on, the floats are more than a cent
    apart and [x] is the float nearest to its own rounding. *)
Definition round2 (x : float) : float :=
  match Prim2SF x with
  | S754_finite s m e =>
    let n := round_half_even (magnitude m e * 100) in
    if (n <? 2 ^ 53)%Z then
      let r := (of_uint63 (Uint63.of_Z n) / 100)%float in
      if s then (- r)%float else r
    else x
  | _ => x
  end.

End Py64.

Module Roof64.
Import PrimFloat.
Open Scope float_scope.

Definition SETUP_MIN_USD : float := 150.00.
Definition CLASS_BASE_COSTS (cls : string) : option float :=
  if String.eqb cls "missing_shingle" then Some 125.00
  else if String.eqb cls "lifted_shingle" then Some 125.00
  else if String.eqb cls "torn_shingle" then Some 125.00
  else if String.eqb cls "hail_bruise" then Some 90.00
  else None.
Definition SEVERITY_MULTIPLIER : float := 400.00.
Definition DISPOSAL_USD : float := 25.00.
Definition CONTINGENCY_PCT : float := 0.10.
Definition LABOR_PCT : float := 0.60.

(** One detection dict, as [perform_inference] builds it. *)
Record Detection := {
  d_cls : string;
  d_bbox : float * float * float * float;
  d_conf : float;
  d_severity : float;
  d_affected_area_pct : float
}.

Record CostEstimate := {
  labor_usd : float;
  materials_usd : float;
  disposal_usd : float;
  contingency_usd : float;
  total_usd : float;
  assumptions : string
}.

(** [estimate_cost] (lines 271-298), operation by operation: the loop adds
    to [subtotal] from the left, [+] and [*] are those of binary64. *)
Definition estimate_cost (detections : list Detection) : CostEstimate :=
  let has_findings := (0 <? length detections)%nat in
  let setup_min := if has_findings then SETUP_MIN_USD else 0.00 in
  let disposal :=
    if existsb (fun d => Roof.in_disposal_classes (d_cls d)) detections
    then DISPOSAL_USD else 0.00 in
  let subtotal :=
    fold_left (fun subtotal d =>
                 let cls := d_cls d in
                 let sev := d_severity d in
                 let base := default 100.00 (CLASS_BASE_COSTS cls) in
                 subtotal + (base + (SEVERITY_MULTIPLIER * sev)))
              detections setup_min in
  let contingency := CONTINGENCY_PCT * subtotal in
  let total := subtotal + disposal + contingency in
  {| labor_usd := Py64.round2 (subtotal * LABOR_PCT);
     materials_usd := Py64.round2 (subtotal * (1 - LABOR_PCT));
     disposal_usd := Py64.round2 disposal;
     contingency_usd := Py64.round2 contingency;
     total_usd := Py64.round2 total;
     assumptions := "Heuristic fallback: class base + area severity + setup minimum + 10% contingency." |}.

Close Scope float_scope.
End Roof64.

(** ** The room-detection service, [inference.py] *)

Module Room.

Definition MODELS : gmap string string :=
  {[ "room-detect-1class-20ep" := "Room Detection - 1 Class - 20 epochs";
     "room-detect-2class-20ep" := "Room Detection - 2 Class - 20 epochs";
     "default" := "Default model (room-detect-1class-20ep)" ]}.

Definition FALLBACK_IDS : list string :=
  ["room-detect-1class-20ep"; "room-detect-2class-20ep"].

(** One element of [result.boxes]: [box.xyxy[0].tolist()] and
    [box.conf[0].item()]. *)
Record Box := { xyxy : Q * Q * Q * Q; box_conf : Q }.

(** One element of the list the detector returns; [boxes] may be [None]. *)
Record Results := { boxes : option (list Box) }.

(** A decoded [PIL.Image] with its [size], [(width, height)]. *)
Record PILImage := { size : Z * Z; image_uid : nat }.

Inductive Font := TrueType | DefaultFont.

(** One element of the [detections] list of the response. *)
Record Detection := {
  id : string;
  bounding_box : Z * Z * Z * Z;
  name_hint : string
}.

(** The dict returned by [perform_inference]. *)
Record Response := {
  detections : list Detection;
  annotated_image : option string
}.

(** What the service does not compute itself. *)
Record World := {
  (** [os.environ.get('BUNDLED_MODELS_PATH')], as a path when set *)
  BUNDLED_MODELS_PATH : option Path;
  (** [Path.cwd()] *)
  PROJECT_ROOT : Path;
  (** [Path.exists]: whether the path is there, or the [OSError] raised
      when the operating system refuses the path *)
  path_exists : Path -> result bool;
  (** [ultralytics.YOLO(path)] *)
  YOLO : Path -> result Model;
  (** [Image.open(BytesIO(image_data))] *)
  Image_open : bytes -> result PILImage;
  (** [model(image, conf=0.25, iou=0.45, verbose=False)] *)
  model_call : Model -> PILImage -> result (list Results);
  (** [draw.rectangle([x1, y1, x2, y2], outline='green', width=3)] *)
  draw_rectangle : PILImage -> Q * Q * Q * Q -> result unit;
  (** [ImageFont.truetype("arial.ttf", 20)] *)
  ImageFont_truetype : result Font;
  (** [ImageFont.load_default()] *)
  ImageFont_load_default : result Font;
  (** [draw.text((x, y), label, fill='green', font=font)] *)
  draw_text : PILImage -> Q * Q -> string -> Font -> result unit;
  (** lines 227-229: the image, with the boxes of [results] drawn on it,
      saved as PNG and base64-encoded *)
  save_png_base64 : PILImage -> list Results -> result string;
  (** [traceback.format_exc()] in the handler of [main]: the rendering of
      the call stack at the point where the exception was raised. The stack
      is decided by the frames the interpreter allows and by the request;
      these are the first two arguments. *)
  format_exc : nat -> bytes -> exn -> string;
  (** the frames the interpreter still allows when [perform_inference]
      calls [load_model] (1000 by default, less those of the callers) *)
  recursion_limit : nat
}.

Definition LOCAL_TRAINING_OUTPUT (W : World) : Path :=
  (PROJECT_ROOT W ++ ["room_detection_training"; "local_training_output"])%list.

(** [find_model_path] (lines 30-54): the bundled models first, then the
    local training output; a [return] inside an [if] ends the function. *)
Definition find_model_path (W : World) (model_id : string)
  : result (option Path) :=
  in_bundled ←
    match BUNDLED_MODELS_PATH W with
    | Some bundled =>
      let bundled_path := (bundled ++ [model_id; "weights"; "best.pt"])%list in
      found ← path_exists W bundled_path;
      if found : bool then Ok (Some bundled_path)
      else
        let alt_bundled_path :=
          (bundled ++ [model_id; "room_detection"; "weights"; "best.pt"])%list
        in
        alt_found ← path_exists W alt_bundled_path;
        if alt_found : bool then Ok (Some alt_bundled_path) else Ok None
    | None => Ok None
    end;
  match in_bundled with
  | Some path => Ok (Some path)
  | None =>
    local_exists ← path_exists W (LOCAL_TRAINING_OUTPUT W);
    if local_exists : bool then
      let local_path :=
        (LOCAL_TRAINING_OUTPUT W ++ [model_id; "weights"; "best.pt"])%list in
      found ← path_exists W local_path;
      if found : bool then Ok (Some local_path)
      else
        let alt_local_path :=
          (LOCAL_TRAINING_OUTPUT W
             ++ [model_id; "room_detection"; "weights"; "best.pt"])%list in
        alt_found ← path_exists W alt_local_path;
        if alt_found : bool then Ok (Some alt_local_path) else Ok None
    else Ok None
  end.

Definition load_model (W : World) :=
  load_model (find_model_path W) MODELS FALLBACK_IDS (YOLO W).

(** [x / n] for a float [x] and an integer [n]. *)
Definition float_div (x : Q) (n : Z) : result Q :=
  if (n =? 0)%Z then Raise (mkExn ZeroDivisionError "float division by zero")
  else Ok (x / inject_Z n)%Q.

(** [f'{n:03d}'] for a positive [n]: decimal, zero-padded to three digits
    at least. *)
Definition format_03d (n : nat) : string :=
  let s := str_of_Z (Z.of_nat n) in
  String.concat "" (repeat "0" (3 - String.length s)) ++ s.

(** [int((coord / dimension) * 1000)]. *)
Definition normalize (coord : Q) (dimension : Z) : result Z :=
  ratio ← float_div coord dimension;
  Ok (int_of_float (ratio * 1000)).

(** The body of the loop [for i, box in enumerate(boxes)] (lines 195-222). *)
Definition process_box (W : World) (image : PILImage)
           (img_width img_height : Z) (i : nat) (box : Box)
  : result Detection :=
  let '(x1, y1, x2, y2) := xyxy box in
  let conf := box_conf box in
  _ ← draw_rectangle W image (x1, y1, x2, y2);
  let label := "Room " ++ str_of_Z (Z.of_nat (i + 1)) in
  font ← match ImageFont_truetype W with
          | Ok font => Ok font
          | Raise _ => ImageFont_load_default W
          end;
  _ ← draw_text W image (x1, y1 - 25)%Q label font;
  x_min ← normalize x1 img_width;
  y_min ← normalize y1 img_height;
  x_max ← normalize x2 img_width;
  y_max ← normalize y2 img_height;
  let bounding_box := (x_min, y_min, x_max, y_max) in
  Ok {| id := "room_" ++ format_03d (i + 1);
        bounding_box := bounding_box;
        name_hint := "room" |}.

(** [for i, box in enumerate(boxes)], from index [i] on. *)
Fixpoint process_boxes (W : World) (image : PILImage)
         (img_width img_height : Z) (i : nat) (boxes : list Box)
  : result (list Detection) :=
  match boxes with
  | [] => Ok []
  | box :: rest =>
    room ← process_box W image img_width img_height i box;
    rooms ← process_boxes W image img_width img_height (S i) rest;
    Ok (room :: rooms)
  end.

(** [for result in results], appending to [detected_rooms]. *)
Fixpoint process_results (W : World) (image : PILImage)
         (img_width img_height : Z) (results : list Results)
  : result (list Detection) :=
  match results with
  | [] => Ok []
  | result :: rest =>
    rooms ← match boxes result with
             | Some bs => process_boxes W image img_width img_height 0 bs
             | None => Ok []
             end;
    more ← process_results W image img_width img_height rest;
    Ok (rooms ++ more)%list
  end.

Definition get_mock_results (image_data : bytes) : list Detection :=
  [ {| id := "room_001";
       bounding_box := (50, 50, 200, 300)%Z;
       name_hint := "room" |};
    {| id := "room_002";
       bounding_box := (250, 50, 700, 500)%Z;
       name_hint := "room" |} ].

(** The [try] block of [perform_inference] (lines 164-234). *)
Definition try_inference (W : World) (image_data : bytes)
           (model_id : string) (loaded_models : gmap string Model)
  : result Response * gmap string Model :=
  match Image_open W image_data with
  | Raise e => (Raise e, loaded_models)
  | Ok image =>
    let '(img_width, img_height) := size image in
    let '(loaded, loaded_models) :=
      load_model W (recursion_limit W) model_id loaded_models in
    (model ← loaded;
     results ← model_call W model image;
     detected_rooms ← process_results W image img_width img_height results;
     annotated_image_base64 ← save_png_base64 W image results;
     Ok {| detections := detected_rooms;
           annotated_image := Some annotated_image_base64 |},
     loaded_models)
  end.

(** [perform_inference]: the [except Exception] clause answers with the
    mock results whatever was raised in the [try] block. *)
Definition perform_inference (W : World) (image_data : bytes)
           (model_id : string) (loaded_models : gmap string Model)
  : Response * gmap string Model :=
  match try_inference W image_data model_id loaded_models with
  | (Ok response, loaded_models) => (response, loaded_models)
  | (Raise e, loaded_models) =>
    let mock_detections := get_mock_results image_data in
    ({| detections := mock_detections; annotated_image := None |},
     loaded_models)
  end.

(** Lines 76-88 of [main]: the request is read off standard input. *)
Definition read_request (stdin : bytes) : result (string * bytes) :=
  let '(model_id_length_bytes, stdin) := read 4 stdin in
  if negb (length model_id_length_bytes =? 4)%nat
  then Raise (mkExn ValueError "Invalid input format")
  else
    let model_id_length := int_from_bytes_big model_id_length_bytes in
    let '(model_id_bytes, stdin) := read (N.to_nat model_id_length) stdin in
    model_id ← match model_id_bytes with
                | [] => Ok "default"
                | _ => decode_utf8 model_id_bytes
                end;
    let image_data := stdin in
    match image_data with
    | [] => Raise (mkExn ValueError "No image data provided")
    | _ => Ok (model_id, image_data)
    end.

Definition json_of_detection (d : Detection) : json :=
  let '(x_min, y_min, x_max, y_max) := bounding_box d in
  JObj [("id", JStr (id d));
        ("bounding_box", JList [JInt x_min; JInt y_min; JInt x_max; JInt y_max]);
        ("name_hint", JStr (name_hint d))].

(** The dict literal of lines 231-234 (and 242-245). *)
Definition json_of_response (r : Response) : json :=
  JObj [("detections", JList (map json_of_detection (detections r)));
        ("annotated_image", json_of_option JStr (annotated_image r))].

(** [main]: what the process has written on standard output when it ends.
    The cache [loaded_models] is empty when the process starts. *)
Definition main (W : World) (stdin : bytes) : list json :=
  let attempt :=
    '(model_id, image_data) ← read_request stdin;
    let result := (perform_inference W image_data model_id ∅).1 in
    Ok [json_of_response result] in
  match attempt with
  | Ok stdout => stdout
  | Raise e => [error_document (format_exc W (recursion_limit W) stdin) e]
  end.

End Room.

Open Scope list_scope.

(** ** The statements of the specification, in its own words *)

Module Spec.

(** The fields of a request, as the length prefix lays them out. *)
Definition header_id_length (stdin : bytes) : nat :=
  N.to_nat (int_from_bytes_big (take 4 stdin)).
Definition header_id_bytes (stdin : bytes) : bytes :=
  take (header_id_length stdin) (drop 4 stdin).
Definition after_identifier (stdin : bytes) : bytes :=
  drop (header_id_length stdin) (drop 4 stdin).
(** The room request has no threshold field; the damage request has one of
    four bytes before the image. *)
Definition room_image_bytes (stdin : bytes) : bytes := after_identifier stdin.
Definition roof_image_bytes (stdin : bytes) : bytes :=
  drop 4 (after_identifier stdin).

Definition is_empty (bs : bytes) : bool :=
  match bs with [] => true | _ => false end.

(** "Fails with [MalformedRequest] if the length prefix cannot be read in
    full, or if zero image bytes remain." *)
Definition malformed (image_bytes : bytes -> bytes) (stdin : bytes) : bool :=
  negb (length (take 4 stdin) =? 4)%nat || is_empty (image_bytes stdin).

(** The identifier [main] hands on for the identifier bytes of a request. *)
Definition model_id_of (id_bytes : bytes) : string :=
  match id_bytes with
  | [] => "default"
  | _ => string_of_list_byte id_bytes
  end.

End Spec.

(** ** Concrete requests and worlds, for the examples *)

Module Examples.

(** The four-byte prefix announcing an identifier of [n < 256] bytes. *)
Definition prefix_of (n : byte) : bytes := [x00; x00; x00; n].

(** The bytes of a tiny "image". *)
Definition image_bytes : bytes := [x89; x50; x4e; x47].

(** A room request whose one-byte identifier, [0xff], is not UTF-8. *)
Definition room_request_bad_utf8 : bytes :=
  prefix_of x01 ++ [xff] ++ image_bytes.

(** The same for the damage service, with threshold bytes (0.5). *)
Definition threshold_bytes : bytes := [x3f; x00; x00; x00].
Definition roof_request_bad_utf8 : bytes :=
  prefix_of x01 ++ [xff] ++ threshold_bytes ++ image_bytes.

(** Requests with an empty identifier. *)
Definition room_request_empty_id : bytes := prefix_of x00 ++ image_bytes.

(** Well-formed requests for the identifier [ab]. *)
Definition id_ab : bytes := [x61; x62].
Definition room_request_ab : bytes := prefix_of x02 ++ id_ab ++ image_bytes.
Definition roof_request_ab : bytes :=
  prefix_of x02 ++ id_ab ++ threshold_bytes ++ image_bytes.

(** A file system holding one weights file under the bundled directory. *)
Definition bundled : Path := ["models"].
Definition weights_of (model_id : string) : Path :=
  bundled ++ [model_id; "weights"; "best.pt"].
Definition only_file (file : Path) (p : Path) : result bool :=
  Ok (bool_decide (p = file)).

Definition traceback_of (limit : nat) (stdin : bytes) (e : exn) : string :=
  ("Traceback (most recent call last): " ++ exn_msg e)%string.

Definition corrupt_weights : exn := mkExn LibraryError "invalid weights file".
Definition cannot_identify_image : exn :=
  mkExn LibraryError "cannot identify image file".
Definition detector_failed : exn := mkExn LibraryError "detector failed".
Definition cannot_write_png : exn := mkExn LibraryError "cannot write PNG".

(** A damage-service world: the nano weights are the only file on disk;
    the rest is given. *)
Definition roof_world (yolo : result Model) (image : result Roof.PILImage)
           (results : result (list Roof.Results)) (plot : result string)
           (api_key : option string) : Roof.World :=
  {| Roof.BUNDLED_MODELS_PATH := Some bundled;
     Roof.path_exists := only_file (weights_of "roof_damage_nano_300ep");
     Roof.YOLO := fun _ => yolo;
     Roof.Image_open := fun _ => image;
     Roof.np_array_shape := fun _ => Ok [480; 640; 3]%Z;
     Roof.model_call := fun _ _ _ => results;
     Roof.plot_png_base64 := fun _ => plot;
     Roof.OPENAI_AVAILABLE := true;
     Roof.OPENAI_API_KEY := api_key;
     Roof.gpt4_vision_reply := fun _ _ _ _ _ =>
       Raise (mkExn LibraryError "connection refused");
     Roof.format_exc := traceback_of;
     Roof.recursion_limit := 997 |}.

(** A room-service world: [on_disk] is the only file; the rest is given. *)
Definition room_world (on_disk : Path) (yolo : result Model)
           (image : result Room.PILImage)
           (results : result (list Room.Results)) (png : result string)
  : Room.World :=
  {| Room.BUNDLED_MODELS_PATH := Some bundled;
     Room.PROJECT_ROOT := ["app"];
     Room.path_exists := only_file on_disk;
     Room.YOLO := fun _ => yolo;
     Room.Image_open := fun _ => image;
     Room.model_call := fun _ _ => results;
     Room.draw_rectangle := fun _ _ => Ok tt;
     Room.ImageFont_truetype := Raise (mkExn LibraryError "cannot open resource");
     Room.ImageFont_load_default := Ok Room.DefaultFont;
     Room.draw_text := fun _ _ _ _ => Ok tt;
     Room.save_png_base64 := fun _ _ => png;
     Room.format_exc := traceback_of;
     Room.recursion_limit := 997 |}.

Definition roof_image : Roof.PILImage := Roof.PilImage 1.
Definition roof_box : Roof.Box :=
  {| Roof.xyxy := (0, 0, 64, 48)%Q; Roof.box_conf := 9 # 10; Roof.box_cls := 3 |}.
Definition roof_results : list Roof.Results :=
  [ {| Roof.boxes := [roof_box]; Roof.results_uid := 1 |} ].

Definition room_image : Room.PILImage :=
  {| Room.size := (1600, 1600)%Z; Room.image_uid := 1 |}.
Definition room_box : Room.Box :=
  {| Room.xyxy := (1, 1, 2, 2)%Q; Room.box_conf := 9 # 10 |}.
Definition room_results : list Room.Results :=
  [ {| Room.boxes := Some [room_box] |} ].

(** The default weights are on disk and the detector library cannot load
    them. *)
Definition roof_world_corrupt_default : Roof.World :=
  roof_world (Raise corrupt_weights) (Ok roof_image) (Ok roof_results)
             (Ok "iVBORw0KGgo=") None.
Definition room_world_corrupt_default : Room.World :=
  room_world (weights_of "room-detect-1class-20ep") (Raise corrupt_weights)
             (Ok room_image) (Ok room_results) (Ok "iVBORw0KGgo=").

(** Everything works. *)
Definition roof_world_ok : Roof.World :=
  roof_world (Ok (YoloModel 1)) (Ok roof_image) (Ok roof_results)
             (Ok "iVBORw0KGgo=") None.
Definition room_world_ok : Room.World :=
  room_world (weights_of "room-detect-1class-20ep") (Ok (YoloModel 1))
             (Ok room_image) (Ok room_results) (Ok "iVBORw0KGgo=").

(** The image cannot be decoded. *)
Definition roof_world_bad_image : Roof.World :=
  roof_world (Ok (YoloModel 1)) (Raise cannot_identify_image)
             (Ok roof_results) (Ok "iVBORw0KGgo=") None.

(** The detector raises. *)
Definition roof_world_detector_fails : Roof.World :=
  roof_world (Ok (YoloModel 1)) (Ok roof_image) (Raise detector_failed)
             (Ok "iVBORw0KGgo=") None.
Definition room_world_detector_fails : Room.World :=
  room_world (weights_of "room-detect-1class-20ep") (Ok (YoloModel 1))
             (Ok room_image) (Raise detector_failed) (Ok "iVBORw0KGgo=").

(** No weights on disk at all. *)
Definition room_world_no_models : Room.World :=
  room_world ["elsewhere"] (Ok (YoloModel 1)) (Ok room_image)
             (Ok room_results) (Ok "iVBORw0KGgo=").

(** Detection works; writing the annotated PNG fails. *)
Definition room_world_png_fails : Room.World :=
  room_world (weights_of "room-detect-1class-20ep") (Ok (YoloModel 1))
             (Ok room_image) (Ok room_results) (Raise cannot_write_png).
Definition roof_world_plot_fails : Roof.World :=
  roof_world (Ok (YoloModel 1)) (Ok roof_image) (Ok roof_results)
             (Raise cannot_write_png) None.

(** Requests for the default model. *)
Definition room_request_default : bytes :=
  prefix_of x07 ++ encode_utf8 "default" ++ image_bytes.
Definition roof_request_default : bytes :=
  prefix_of x07 ++ encode_utf8 "default" ++ threshold_bytes
            ++ image_bytes.




End Examples.


Module CostSpec.
Open Scope Q_scope.

(** "class base cost": the table entry, 100.00 for a class outside it. *)
Definition class_base_cost (cls : string) : Q :=
  default 100%Q (Roof.CLASS_BASE_COSTS cls).

(** "Σ over detections of (class base cost + severity × fixed multiplier)" *)
Fixpoint damage_sum (ds : list Roof.Detection) : Q :=
  match ds with
  | [] => 0
  | d :: ds' =>
    (class_base_cost (Roof.d_cls d) + 400 * Roof.d_severity d) + damage_sum ds'
  end.

(** "fixed setup fee (only if ≥1 detection)" *)
Definition setup_fee (ds : list Roof.Detection) : Q :=
  match ds with [] => 0 | _ => 150 end.

Definition subtotal (ds : list Roof.Detection) : Q :=
  setup_fee ds + damage_sum ds.

(** "disposal fee added if any detection's class is in a fixed
    disposal-triggering set" *)
Definition disposal (ds : list Roof.Detection) : Q :=
  if existsb (fun d => bool_decide (Roof.d_cls d = "missing_shingle"
                                    \/ Roof.d_cls d = "torn_shingle")) ds
  then 25 else 0.

Definition contingency (ds : list Roof.Detection) : Q := (10 # 100) * subtotal ds.

Definition total (ds : list Roof.Detection) : Q :=
  subtotal ds + disposal ds + contingency ds.


Close Scope Q_scope.
End CostSpec.

(** The same formula with the amounts in binary64; the terms of the sum are
    added to the setup fee in the order of the detections. *)
Module CostSpec64.
Import PrimFloat.
Open Scope float_scope.

(** "class base cost": the table entry, 100.00 for a class outside it. *)
Definition class_base_cost (cls : string) : float :=
  default 100 (Roof64.CLASS_BASE_COSTS cls).

(** "class base cost + severity × fixed multiplier" of one detection *)
Definition damage (d : Roof64.Detection) : float :=
  class_base_cost (Roof64.d_cls d) + 400 * Roof64.d_severity d.

(** "fixed setup fee (only if ≥1 detection)" *)
Definition setup_fee (ds : list Roof64.Detection) : float :=
  match ds with [] => 0 | _ => 150 end.

(** "setup fee + Σ over detections" *)
Definition subtotal (ds : list Roof64.Detection) : float :=
  fold_left add (map damage ds) (setup_fee ds).

(** "disposal fee added if any detection's class is in a fixed
    disposal-triggering set" *)
Definition disposal (ds : list Roof64.Detection) : float :=
  if existsb (fun d => bool_decide (Roof64.d_cls d = "missing_shingle"
                                    \/ Roof64.d_cls d = "torn_shingle")) ds
  then 25 else 0.

(** "contingency = 10% of subtotal" *)
Definition contingency (ds : list Roof64.Detection) : float :=
  0.1 * subtotal ds.

(** "total = subtotal + disposal + contingency" *)
Definition total (ds : list Roof64.Detection) : float :=
  subtotal ds + disposal ds + contingency ds.

(** "labor = 60% of subtotal, materials = 40% of subtotal" *)
Definition labor (ds : list Roof64.Detection) : float := subtotal ds * 0.6.
Definition materials (ds : list Roof64.Detection) : float := subtotal ds * 0.4.

(** One detection of class [cls] and severity [severity]. *)
Definition detection (cls : string) (severity : float) : Roof64.Detection :=
  {| Roof64.d_cls := cls;
     Roof64.d_bbox := (0, 0, 0, 0);
     Roof64.d_conf := 0.8;
     Roof64.d_severity := severity;
     Roof64.d_affected_area_pct := Py64.round2 (severity * 100) |}.

Close Scope float_scope.
End CostSpec64.


Module RoomSpec.

(** "normalized to the 0–1000 integer range via
    [round(coord / image_dimension * 1000)]" *)
Definition normalize_rounded (coord : Q) (dimension : Z) : Z :=
  round_half_even (coord / inject_Z dimension * 1000)%Q.

(** What the code computes instead: the same quotient, truncated. *)
Definition normalize_truncated (coord : Q) (dimension : Z) : Z :=
  int_of_float (coord / inject_Z dimension * 1000)%Q.

(** The detection reported for the box of 0-based index [i] of a result, on
    an image of [img_width] by [img_height] pixels. *)
Definition detection_of (img_width img_height : Z) (i : nat) (box : Room.Box)
  : Room.Detection :=
  let '(x1, y1, x2, y2) := Room.xyxy box in
  {| Room.id := ("room_" ++ Room.format_03d (i + 1))%string;
     Room.bounding_box :=
       (normalize_truncated x1 img_width, normalize_truncated y1 img_height,
        normalize_truncated x2 img_width, normalize_truncated y2 img_height);
     Room.name_hint := "room" |}.

(** The detections reported for the results of the detector: the boxes of
    each result in turn, numbered from 1 within their result. *)
Definition detections_of (img_width img_height : Z)
           (results : list Room.Results) : list Room.Detection :=
  flat_map (fun r => imap (detection_of img_width img_height)
                          (default [] (Room.boxes r)))
           results.

(** The box [100, 100, 200, 200]. *)
Definition box_100_200 : Room.Box :=
  {| Room.xyxy := (100, 100, 200, 200)%Q; Room.box_conf := 9 # 10 |}.

End RoomSpec.


Module ServiceSpec.

(** The outcome of the [try] block of [main], before anything is printed. *)
Definition roof_outcome (W : Roof.World) (stdin : bytes)
  : result Roof.Response :=
  '(model_id, confidence, image_data) ← Roof.read_request stdin;
  (Roof.perform_inference W image_data model_id confidence ∅).1.

Definition room_outcome (W : Room.World) (stdin : bytes)
  : result Room.Response :=
  '(model_id, image_data) ← Room.read_request stdin;
  Ok (Room.perform_inference W image_data model_id ∅).1.

(** The stages of the damage service's [perform_inference] that can make it
    raise [e]: model resolution, image decoding, conversion to an array,
    reading the dimensions, the detector. *)
Definition roof_stage_failure (W : Roof.World) (image_data : bytes)
           (model_id : string) (conf_threshold : Roof.Confidence)
           (loaded_models : gmap string Model) (e : exn) : Prop :=
  let loaded :=
    (Roof.load_model W (Roof.recursion_limit W) model_id loaded_models).1 in
  loaded = Raise e
  \/ exists model, loaded = Ok model
     /\ (Roof.Image_open W image_data = Raise e
         \/ exists pil_image, Roof.Image_open W image_data = Ok pil_image
            /\ (Roof.np_array_shape W pil_image = Raise e
                \/ exists shape, Roof.np_array_shape W pil_image = Ok shape
                   /\ (Roof.image_dimensions shape = Raise e
                       \/ (exists dims, Roof.image_dimensions shape = Ok dims)
                          /\ Roof.model_call W model pil_image conf_threshold
                             = Raise e))).

(** The response the room service falls back to. *)
Definition mock_response (image_data : bytes) : Room.Response :=
  {| Room.detections := Room.get_mock_results image_data;
     Room.annotated_image := None |}.

(** A damage-service world with another overlay renderer. *)
Definition with_overlay (W : Roof.World)
           (plot : Roof.Results -> result string) : Roof.World :=
  {| Roof.BUNDLED_MODELS_PATH := Roof.BUNDLED_MODELS_PATH W;
     Roof.path_exists := Roof.path_exists W;
     Roof.YOLO := Roof.YOLO W;
     Roof.Image_open := Roof.Image_open W;
     Roof.np_array_shape := Roof.np_array_shape W;
     Roof.model_call := Roof.model_call W;
     Roof.plot_png_base64 := plot;
     Roof.OPENAI_AVAILABLE := Roof.OPENAI_AVAILABLE W;
     Roof.OPENAI_API_KEY := Roof.OPENAI_API_KEY W;
     Roof.gpt4_vision_reply := Roof.gpt4_vision_reply W;
     Roof.format_exc := Roof.format_exc W;
     Roof.recursion_limit := Roof.recursion_limit W |}.

(** A damage-service world with another OpenAI library, credential and
    vision service. *)
Definition with_openai (W : Roof.World) (available : bool)
           (api_key : option string)
           (reply : string -> string -> list Roof.Detection -> Z -> Z
                    -> result json) : Roof.World :=
  {| Roof.BUNDLED_MODELS_PATH := Roof.BUNDLED_MODELS_PATH W;
     Roof.path_exists := Roof.path_exists W;
     Roof.YOLO := Roof.YOLO W;
     Roof.Image_open := Roof.Image_open W;
     Roof.np_array_shape := Roof.np_array_shape W;
     Roof.model_call := Roof.model_call W;
     Roof.plot_png_base64 := Roof.plot_png_base64 W;
     Roof.OPENAI_AVAILABLE := available;
     Roof.OPENAI_API_KEY := api_key;
     Roof.gpt4_vision_reply := reply;
     Roof.format_exc := Roof.format_exc W;
     Roof.recursion_limit := Roof.recursion_limit W |}.

(** A response with its annotated image made absent. *)
Definition without_overlay (r : Roof.Response) : Roof.Response :=
  {| Roof.detections := Roof.detections r;
     Roof.cost_estimate := Roof.cost_estimate r;
     Roof.image_width := Roof.image_width r;
     Roof.image_height := Roof.image_height r;
     Roof.annotated_image := None |}.

Definition map_result {A B} (f : A -> B) (r : result A) : result B :=
  match r with
  | Ok a => Ok (f a)
  | Raise e => Raise e
  end.

End ServiceSpec.


Module MoreExamples.

(** No [BUNDLED_MODELS_PATH] in the environment, nothing on disk. *)
Definition roof_world_no_env : Roof.World :=
  {| Roof.BUNDLED_MODELS_PATH := None;
     Roof.path_exists := fun _ => Ok false;
     Roof.YOLO := fun _ => Ok (YoloModel 1);
     Roof.Image_open := fun _ => Ok Examples.roof_image;
     Roof.np_array_shape := fun _ => Ok [480; 640; 3]%Z;
     Roof.model_call := fun _ _ _ => Ok Examples.roof_results;
     Roof.plot_png_base64 := fun _ => Ok "iVBORw0KGgo=";
     Roof.OPENAI_AVAILABLE := false;
     Roof.OPENAI_API_KEY := None;
     Roof.gpt4_vision_reply := fun _ _ _ _ _ =>
       Raise (mkExn LibraryError "connection refused");
     Roof.format_exc := Examples.traceback_of;
     Roof.recursion_limit := 997 |}.

Definition room_world_no_env : Room.World :=
  {| Room.BUNDLED_MODELS_PATH := None;
     Room.PROJECT_ROOT := ["app"];
     Room.path_exists := fun _ => Ok false;
     Room.YOLO := fun _ => Ok (YoloModel 1);
     Room.Image_open := fun _ => Ok Examples.room_image;
     Room.model_call := fun _ _ => Ok Examples.room_results;
     Room.draw_rectangle := fun _ _ => Ok tt;
     Room.ImageFont_truetype := Ok Room.TrueType;
     Room.ImageFont_load_default := Ok Room.DefaultFont;
     Room.draw_text := fun _ _ _ _ => Ok tt;
     Room.save_png_base64 := fun _ _ => Ok "iVBORw0KGgo=";
     Room.format_exc := Examples.traceback_of;
     Room.recursion_limit := 997 |}.

End MoreExamples.


Module Digits.

(** The number a string of decimal digits stands for (leading zeros
    allowed); [None] when a character is not a digit. *)
Definition digits_value (s : string) : option Z :=
  option_map Z.of_uint (NilEmpty.uint_of_string s).

End Digits.


Module Limits.



End Limits.


(** * Verified properties *)

(** ** The request decoder *)

Lemma length_take_4 (stdin : bytes) :
  (length (take 4 stdin) =? 4)%nat = (4 <=? length stdin)%nat.
Proof.
  rewrite length_take.
  destruct (Nat.leb_spec 4 (length stdin)).
  - rewrite Nat.min_l by lia. reflexivity.
  - rewrite Nat.min_r by lia. apply Nat.eqb_neq. lia.
Qed.

Lemma decode_utf8_raises (bs : bytes) :
  raises (decode_utf8 bs) = negb (utf8_valid bs).
Proof. unfold decode_utf8. destruct (utf8_valid bs); reflexivity. Qed.

Lemma model_id_raises (bs : bytes) :
  raises (match bs with [] => Ok "default" | _ => decode_utf8 bs end)
  = negb (utf8_valid bs).
Proof. destruct bs; [reflexivity | apply decode_utf8_raises]. Qed.

Lemma model_id_valid (bs : bytes) :
  utf8_valid bs = true ->
  match bs with [] => Ok "default" | _ => decode_utf8 bs end
  = Ok (Spec.model_id_of bs).
Proof.
  intros Hv. destruct bs; [reflexivity |].
  unfold decode_utf8. rewrite Hv. reflexivity.
Qed.

Lemma room_read_request_raises (stdin : bytes) :
  raises (Room.read_request stdin)
  = negb (length (take 4 stdin) =? 4)%nat
    || negb (utf8_valid (Spec.header_id_bytes stdin))
    || Spec.is_empty (Spec.room_image_bytes stdin).
Proof.
  unfold Room.read_request, read, Spec.room_image_bytes,
    Spec.after_identifier, Spec.header_id_bytes, Spec.header_id_length.
  destruct (length (take 4 stdin) =? 4)%nat; simpl; [| reflexivity].
  set (id_bytes := take _ (drop 4 stdin)).
  set (rest := drop _ (drop 4 stdin)).
  pose proof (model_id_raises id_bytes) as Hid.
  destruct (match id_bytes with [] => Ok "default" | _ => decode_utf8 id_bytes end);
    simpl in *; rewrite <- Hid; simpl; [| reflexivity].
  destruct rest; reflexivity.
Qed.

Lemma roof_read_request_raises (stdin : bytes) :
  raises (Roof.read_request stdin)
  = negb (length (take 4 stdin) =? 4)%nat
    || negb (utf8_valid (Spec.header_id_bytes stdin))
    || Spec.is_empty (Spec.roof_image_bytes stdin).
Proof.
  unfold Roof.read_request, read, Spec.roof_image_bytes,
    Spec.after_identifier, Spec.header_id_bytes, Spec.header_id_length.
  destruct (length (take 4 stdin) =? 4)%nat; simpl; [| reflexivity].
  set (id_bytes := take _ (drop 4 stdin)).
  set (rest := drop _ (drop 4 stdin)).
  pose proof (model_id_raises id_bytes) as Hid.
  destruct (match id_bytes with [] => Ok "default" | _ => decode_utf8 id_bytes end);
    simpl in *; rewrite <- Hid; simpl; [| reflexivity].
  destruct (drop 4 rest); reflexivity.
Qed.

Lemma room_read_request_framed (prefix id_bytes image : bytes) :
  length prefix = 4%nat ->
  int_from_bytes_big prefix = N.of_nat (length id_bytes) ->
  utf8_valid id_bytes = true ->
  image <> [] ->
  Room.read_request (prefix ++ id_bytes ++ image)
  = Ok (Spec.model_id_of id_bytes, image).
Proof.
  intros Hlen Hpre Hv Himg.
  unfold Room.read_request, read.
  rewrite take_app_length' by (symmetry; exact Hlen).
  rewrite drop_app_length' by (symmetry; exact Hlen).
  rewrite Hlen, Hpre, Nat2N.id. simpl.
  rewrite take_app_length, drop_app_length.
  rewrite (model_id_valid _ Hv). simpl.
  destruct image; [congruence | reflexivity].
Qed.

Lemma roof_read_request_framed (prefix id_bytes threshold image : bytes) :
  length prefix = 4%nat ->
  int_from_bytes_big prefix = N.of_nat (length id_bytes) ->
  utf8_valid id_bytes = true ->
  length threshold = 4%nat ->
  image <> [] ->
  Roof.read_request (prefix ++ id_bytes ++ threshold ++ image)
  = Ok (Spec.model_id_of id_bytes, Roof.Float32 threshold, image).
Proof.
  intros Hlen Hpre Hv Hthr Himg.
  unfold Roof.read_request, read.
  rewrite take_app_length' by (symmetry; exact Hlen).
  rewrite drop_app_length' by (symmetry; exact Hlen).
  rewrite Hlen, Hpre, Nat2N.id. simpl.
  rewrite take_app_length, drop_app_length.
  rewrite (model_id_valid _ Hv). simpl.
  rewrite take_app_length' by (symmetry; exact Hthr).
  rewrite drop_app_length' by (symmetry; exact Hthr).
  rewrite Hthr. simpl.
  destruct image; [congruence | reflexivity].
Qed.

(** C6, as stated, fails: on a request whose length prefix is complete and
    after whose header image bytes remain, both decoders raise when the
    identifier bytes are not UTF-8 ([UnicodeDecodeError], a [ValueError]);
    and for an empty identifier the decoder hands on ["default"], not the
    empty identifier the prefix specifies. *)
Lemma C6_counterexample :
  (raises (Room.read_request Examples.room_request_bad_utf8) = true
   /\ Spec.malformed Spec.room_image_bytes Examples.room_request_bad_utf8
      = false)
  /\ (raises (Roof.read_request Examples.roof_request_bad_utf8) = true
      /\ Spec.malformed Spec.roof_image_bytes Examples.roof_request_bad_utf8
         = false)
  /\ (exists e : exn,
         Room.read_request Examples.room_request_bad_utf8 = Raise e
         /\ exn_cls e = UnicodeDecodeError /\ is_ValueError e = true)
  /\ (Spec.header_id_bytes Examples.room_request_empty_id = []
      /\ Room.read_request Examples.room_request_empty_id
         = Ok ("default", Examples.image_bytes)).
Proof.
  split; [| split; [| split]]; try (split; vm_compute; reflexivity).
  eexists. repeat split; vm_compute; reflexivity.
Qed.

(** C6 (amended): each decoder raises exactly when the four-byte length
    prefix cannot be read in full, or the identifier bytes are not valid
    UTF-8, or no image byte remains after the header; and on a request laid
    out as prefix, identifier, (threshold,) image, with a UTF-8 identifier of
    the announced length and a non-empty image, it returns the identifier
    (["default"] when the identifier is empty), the threshold bytes and
    exactly the image bytes. *)
Theorem C6_read_request_amended :
  (forall stdin : bytes,
      raises (Room.read_request stdin)
      = negb (length (take 4 stdin) =? 4)%nat
        || negb (utf8_valid (Spec.header_id_bytes stdin))
        || Spec.is_empty (Spec.room_image_bytes stdin))
  /\ (forall stdin : bytes,
         raises (Roof.read_request stdin)
         = negb (length (take 4 stdin) =? 4)%nat
           || negb (utf8_valid (Spec.header_id_bytes stdin))
           || Spec.is_empty (Spec.roof_image_bytes stdin))
  /\ (forall prefix id_bytes image : bytes,
         length prefix = 4%nat ->
         int_from_bytes_big prefix = N.of_nat (length id_bytes) ->
         utf8_valid id_bytes = true ->
         image <> [] ->
         Room.read_request (prefix ++ id_bytes ++ image)
         = Ok (Spec.model_id_of id_bytes, image))
  /\ (forall prefix id_bytes threshold image : bytes,
         length prefix = 4%nat ->
         int_from_bytes_big prefix = N.of_nat (length id_bytes) ->
         utf8_valid id_bytes = true ->
         length threshold = 4%nat ->
         image <> [] ->
         Roof.read_request (prefix ++ id_bytes ++ threshold ++ image)
         = Ok (Spec.model_id_of id_bytes, Roof.Float32 threshold, image)).
Proof.
  split; [exact room_read_request_raises |].
  split; [exact roof_read_request_raises |].
  split; [exact room_read_request_framed | exact roof_read_request_framed].
Qed.

Lemma C6_read_request_amended_witness :
  Room.read_request Examples.room_request_ab = Ok ("ab", Examples.image_bytes)
  /\ Roof.read_request Examples.roof_request_ab
     = Ok ("ab", Roof.Float32 Examples.threshold_bytes, Examples.image_bytes).
Proof.
  destruct C6_read_request_amended as (_ & _ & Hroom & Hroof).
  split.
  - apply (Hroom (Examples.prefix_of x02) Examples.id_ab Examples.image_bytes);
      [reflexivity | reflexivity | reflexivity | discriminate].
  - apply (Hroof (Examples.prefix_of x02) Examples.id_ab
             Examples.threshold_bytes Examples.image_bytes);
      [reflexivity | reflexivity | reflexivity | reflexivity | discriminate].
Defined.

(** ** Model resolution *)

Section ResolverFacts.
Variable find_model_path : string -> result (option Path).
Variable MODELS : gmap string string.
Variable fallback_ids : list string.
Variable YOLO : Path -> result Model.

Local Abbreviation load :=
  (load_model find_model_path MODELS fallback_ids YOLO).

(** One unfolding of [load_model] for an identifier that is not cached and
    is not ["default"]. *)
Lemma load_model_other (depth : nat) (model_id : string)
      (loaded_models : gmap string Model) :
  loaded_models !! model_id = None ->
  model_id <> "default" ->
  load (S depth) model_id loaded_models
  = match find_model_path model_id with
    | Raise e => (Raise e, loaded_models)
    | Ok None => load depth "default" loaded_models
    | Ok (Some model_path) =>
      match YOLO model_path with
      | Ok model => (Ok model, <[model_id := model]> loaded_models)
      | Raise _ => load depth "default" loaded_models
      end
    end.
Proof.
  intros Hc Hne. simpl. rewrite Hc.
  destruct (decide (model_id = "default")) as [Heq | _]; [contradiction |].
  destruct (MODELS !! model_id);
    (destruct (find_model_path model_id) as [[p |] | e]; try reflexivity;
     destruct (YOLO p); [reflexivity |];
     destruct (decide (model_id <> "default")); [reflexivity | contradiction]).
Qed.

Lemma load_model_default (depth : nat) (loaded_models : gmap string Model) :
  loaded_models !! "default" = None ->
  load (S depth) "default" loaded_models
  = match first_available find_model_path fallback_ids with
    | Raise e => (Raise e, loaded_models)
    | Ok (Some fallback_id) => load depth fallback_id loaded_models
    | Ok None => (Raise no_default_model, loaded_models)
    end.
Proof. intros Hc. simpl. rewrite Hc. reflexivity. Qed.

Lemma first_available_raises (ids : list string) (e : exn) :
  first_available find_model_path ids = Raise e ->
  exists i, find_model_path i = Raise e.
Proof.
  induction ids as [| i ids IH]; simpl; [discriminate |].
  destruct (find_model_path i) as [[p |] | e0] eqn:Hi;
    [discriminate | exact IH |].
  intros H. injection H as <-. eauto.
Qed.

(** Whatever [load_model] raises is the interpreter's [RecursionError], the
    "no default model" exception, or what a lookup of [find_model_path]
    raised: the statement [raise Exception(f"Model loading failed: {e}")] is
    never reached. *)
Lemma load_model_raise_cases (depth : nat) :
  forall (model_id : string) (loaded_models lm' : gmap string Model) (e : exn),
    load depth model_id loaded_models = (Raise e, lm') ->
    e = recursion_error \/ e = no_default_model
    \/ exists i, find_model_path i = Raise e.
Proof.
  induction depth as [| depth IH]; intros model_id lm lm' e H.
  - simpl in H. left. congruence.
  - destruct (lm !! model_id) as [m |] eqn:Hc.
    + simpl in H. rewrite Hc in H. discriminate.
    + destruct (decide (model_id = "default")) as [-> | Hne].
      * rewrite load_model_default in H by exact Hc.
        destruct (first_available find_model_path fallback_ids)
          as [[fid |] | e0] eqn:Hfirst.
        -- eapply IH; exact H.
        -- right. left. congruence.
        -- injection H as <- _. right. right.
           eapply first_available_raises. exact Hfirst.
      * rewrite load_model_other in H by assumption.
        destruct (find_model_path model_id) as [[p |] | e0] eqn:Hp.
        -- destruct (YOLO p); [discriminate | eapply IH; exact H].
        -- eapply IH; exact H.
        -- injection H as <- _. right. right. eauto.
Qed.

(** When the weights that ["default"] resolves to are on disk but do not
    load, ["default"] and that identifier call each other until the
    interpreter gives up. *)
Lemma load_model_default_cycle (fallback_id : string) (p : Path) (e : exn)
      (loaded_models : gmap string Model) :
  first_available find_model_path fallback_ids = Ok (Some fallback_id) ->
  fallback_id <> "default" ->
  find_model_path fallback_id = Ok (Some p) ->
  YOLO p = Raise e ->
  loaded_models !! "default" = None ->
  loaded_models !! fallback_id = None ->
  forall depth : nat,
    load depth "default" loaded_models = (Raise recursion_error, loaded_models)
    /\ load depth fallback_id loaded_models
       = (Raise recursion_error, loaded_models).
Proof.
  intros Hfirst Hne Hpath Hload Hd Hf.
  induction depth as [| depth [IHd IHf]]; [split; reflexivity |].
  split.
  - rewrite load_model_default by exact Hd. rewrite Hfirst. exact IHf.
  - rewrite load_model_other by assumption. rewrite Hpath, Hload. exact IHd.
Qed.


(** ["default"] resolves when the first identifier of the priority list
    whose weights are on disk loads. *)
Lemma load_model_default_ok (depth : nat) (fallback_id : string) (p : Path)
      (model : Model) :
  first_available find_model_path fallback_ids = Ok (Some fallback_id) ->
  fallback_id <> "default" ->
  find_model_path fallback_id = Ok (Some p) ->
  YOLO p = Ok model ->
  load (S (S depth)) "default" ∅ = (Ok model, {[fallback_id := model]}).
Proof.
  intros Hfirst Hne Hpath Hload.
  rewrite load_model_default by apply lookup_empty. rewrite Hfirst.
  rewrite load_model_other by (apply lookup_empty || exact Hne).
  rewrite Hpath, Hload. reflexivity.
Qed.
End ResolverFacts.



(** C2 (the code departs from the claim): with the default weights on disk
    and the detector library failing to load them, [load_model('default')]
    ends, at every depth the interpreter allows, in [RecursionError], the
    cache unchanged: ["default"] and its priority-list fallback call each
    other. In no world does [load_model] raise the "Model loading failed"
    exception: what it raises is [RecursionError], "No default model
    found", or what a lookup of [find_model_path] raised. *)
Theorem C2_default_load_failure_recurses :
  (forall depth : nat,
      Roof.load_model Examples.roof_world_corrupt_default depth "default" ∅
      = (Raise recursion_error, ∅))
  /\ (forall depth : nat,
         Room.load_model Examples.room_world_corrupt_default depth "default" ∅
         = (Raise recursion_error, ∅))
  /\ (forall (W : Roof.World) (depth : nat) (model_id : string)
             (loaded_models : gmap string Model),
         match (Roof.load_model W depth model_id loaded_models).1 with
         | Ok _ => True
         | Raise e =>
           e = recursion_error \/ e = no_default_model
           \/ exists i, Roof.find_model_path W i = Raise e
         end)
  /\ (forall (W : Room.World) (depth : nat) (model_id : string)
             (loaded_models : gmap string Model),
         match (Room.load_model W depth model_id loaded_models).1 with
         | Ok _ => True
         | Raise e =>
           e = recursion_error \/ e = no_default_model
           \/ exists i, Room.find_model_path W i = Raise e
         end).
Proof.
  split; [| split; [| split]].
  - intros depth.
    eapply (load_model_default_cycle _ _ _ _ "roof_damage_nano_300ep");
      try reflexivity; discriminate.
  - intros depth.
    eapply (load_model_default_cycle _ _ _ _ "room-detect-1class-20ep");
      try reflexivity; discriminate.
  - intros W depth model_id lm.
    destruct (Roof.load_model W depth model_id lm) as [[m | e] lm'] eqn:H;
      simpl; [exact I |].
    eapply load_model_raise_cases; exact H.
  - intros W depth model_id lm.
    destruct (Room.load_model W depth model_id lm) as [[m | e] lm'] eqn:H;
      simpl; [exact I |].
    eapply load_model_raise_cases; exact H.
Qed.




(** ** The heuristic cost estimate *)

Open Scope Q_scope.




Lemma in_disposal_classes_spec (cls : string) :
  Roof.in_disposal_classes cls
  = bool_decide (cls = "missing_shingle" \/ cls = "torn_shingle").
Proof.
  unfold Roof.in_disposal_classes, Roof.disposal_classes. simpl.
  destruct (String.eqb_spec cls "missing_shingle") as [-> | H1];
    [reflexivity |].
  destruct (String.eqb_spec cls "torn_shingle") as [-> | H2];
    [reflexivity |].
  symmetry. apply bool_decide_eq_false. intros [? | ?]; contradiction.
Qed.



Close Scope Q_scope.

(** *** The amounts, in binary64 *)

Section Cost64.
Import PrimFloat.
Local Open Scope float_scope.

Lemma subtotal_loop64 (ds : list Roof64.Detection) (start : float) :
  fold_left
    (fun subtotal d =>
       subtotal
       + (default 100 (Roof64.CLASS_BASE_COSTS (Roof64.d_cls d))
          + Roof64.SEVERITY_MULTIPLIER * Roof64.d_severity d))
    ds start
  = fold_left add (map CostSpec64.damage ds) start.
Proof.
  revert start. induction ds as [| d ds IH]; intros start; simpl;
    [reflexivity | apply IH].
Qed.

Lemma estimate_cost_subtotal64 (ds : list Roof64.Detection) :
  fold_left
    (fun subtotal d =>
       subtotal
       + (default 100 (Roof64.CLASS_BASE_COSTS (Roof64.d_cls d))
          + Roof64.SEVERITY_MULTIPLIER * Roof64.d_severity d))
    ds (if (0 <? length ds)%nat then Roof64.SETUP_MIN_USD else 0)
  = CostSpec64.subtotal ds.
Proof.
  rewrite subtotal_loop64. unfold CostSpec64.subtotal.
  destruct ds; reflexivity.
Qed.

Lemma estimate_cost_disposal64 (ds : list Roof64.Detection) :
  (if existsb (fun d => Roof.in_disposal_classes (Roof64.d_cls d)) ds
   then Roof64.DISPOSAL_USD else 0)
  = CostSpec64.disposal ds.
Proof.
  unfold CostSpec64.disposal.
  assert (He : existsb (fun d => Roof.in_disposal_classes (Roof64.d_cls d)) ds
               = existsb (fun d => bool_decide
                                     (Roof64.d_cls d = "missing_shingle"
                                      \/ Roof64.d_cls d = "torn_shingle")) ds).
  { induction ds as [| d ds IH]; simpl; [reflexivity |].
    rewrite in_disposal_classes_spec, IH. reflexivity. }
  rewrite He. reflexivity.
Qed.

(** C3: with the amounts in binary64, as Python computes them, the fields
    [estimate_cost] returns are the two-decimal roundings of labor = 60% and
    materials = 40% of the subtotal, of the disposal fee, of the contingency
    = 10% of the subtotal and of the total = subtotal + disposal +
    contingency, where the subtotal is the setup fee 150.00 (only with at
    least one detection) plus, per detection and in their order, its class
    base cost plus 400.00 times its severity, and the disposal fee is 25.00
    when some class is "missing_shingle" or "torn_shingle". No detection
    gives 0 everywhere; one "hail_bruise" of severity 0.5 gives subtotal 440,
    contingency 44, total 484 and no disposal. One "hail_bruise" whose box of
    4 by 48 pixels on an image of 640 by 480 has severity 192 / 307200 gives
    subtotal 240.25, contingency 24.03 and total 264.27; a "missing_shingle"
    of severity 0.3 and a "hail_bruise" of severity 0.07 give subtotal 513,
    disposal 25, contingency 51.3 and total 589.3. *)
Theorem C3_estimate_cost_formula :
  (forall ds : list Roof64.Detection,
      let c := Roof64.estimate_cost ds in
      Roof64.labor_usd c = Py64.round2 (CostSpec64.labor ds)
      /\ Roof64.materials_usd c = Py64.round2 (CostSpec64.materials ds)
      /\ Roof64.disposal_usd c = Py64.round2 (CostSpec64.disposal ds)
      /\ Roof64.contingency_usd c = Py64.round2 (CostSpec64.contingency ds)
      /\ Roof64.total_usd c = Py64.round2 (CostSpec64.total ds))
  /\ (let c := Roof64.estimate_cost [] in
      CostSpec64.subtotal [] = 0
      /\ Roof64.labor_usd c = 0 /\ Roof64.materials_usd c = 0
      /\ Roof64.disposal_usd c = 0 /\ Roof64.contingency_usd c = 0
      /\ Roof64.total_usd c = 0)
  /\ (forall (bbox : float * float * float * float) (conf pct : float),
         let ds := [ {| Roof64.d_cls := "hail_bruise";
                        Roof64.d_bbox := bbox;
                        Roof64.d_conf := conf;
                        Roof64.d_severity := 0.5;
                        Roof64.d_affected_area_pct := pct |} ] in
         let c := Roof64.estimate_cost ds in
         CostSpec64.subtotal ds = 440
         /\ CostSpec64.disposal ds = 0
         /\ Roof64.labor_usd c = 264 /\ Roof64.materials_usd c = 176
         /\ Roof64.disposal_usd c = 0 /\ Roof64.contingency_usd c = 44
         /\ Roof64.total_usd c = 484)
  /\ (let ds := [CostSpec64.detection "hail_bruise" (192 / 307200)] in
      let c := Roof64.estimate_cost ds in
      CostSpec64.subtotal ds = 240.25
      /\ Roof64.labor_usd c = 144.15 /\ Roof64.materials_usd c = 96.1
      /\ Roof64.disposal_usd c = 0 /\ Roof64.contingency_usd c = 24.03
      /\ Roof64.total_usd c = 264.27)
  /\ (let ds := [CostSpec64.detection "missing_shingle" 0.3;
                 CostSpec64.detection "hail_bruise" 0.07] in
      let c := Roof64.estimate_cost ds in
      CostSpec64.subtotal ds = 513
      /\ Roof64.labor_usd c = 307.8 /\ Roof64.materials_usd c = 205.2
      /\ Roof64.disposal_usd c = 25 /\ Roof64.contingency_usd c = 51.3
      /\ Roof64.total_usd c = 589.3).
Proof.
  split; [| split; [| split; [| split]]].
  - intros ds c. subst c. unfold Roof64.estimate_cost. cbv zeta.
    cbn [Roof64.labor_usd Roof64.materials_usd Roof64.disposal_usd
         Roof64.contingency_usd Roof64.total_usd].
    rewrite estimate_cost_subtotal64, estimate_cost_disposal64.
    repeat split.
  - cbv zeta. repeat split; vm_compute; reflexivity.
  - intros bbox conf pct. cbv zeta. repeat split; vm_compute; reflexivity.
  - cbv zeta. repeat split; vm_compute; reflexivity.
  - cbv zeta. repeat split; vm_compute; reflexivity.
Qed.

End Cost64.


(** ** Room detections *)

Lemma normalize_ok (coord : Q) (dimension : Z) (z : Z) :
  Room.normalize coord dimension = Ok z ->
  dimension <> 0%Z /\ z = RoomSpec.normalize_truncated coord dimension.
Proof.
  unfold Room.normalize, Room.float_div, RoomSpec.normalize_truncated.
  destruct (Z.eqb_spec dimension 0) as [-> | Hne]; simpl; [discriminate |].
  intros H. split; [exact Hne | congruence].
Qed.

Lemma process_box_ok (W : Room.World) (image : Room.PILImage)
      (img_width img_height : Z) (i : nat) (box : Room.Box)
      (d : Room.Detection) :
  Room.process_box W image img_width img_height i box = Ok d ->
  d = RoomSpec.detection_of img_width img_height i box.
Proof.
  unfold Room.process_box, RoomSpec.detection_of.
  destruct (Room.xyxy box) as [[[x1 y1] x2] y2].
  destruct (Room.draw_rectangle W image (x1, y1, x2, y2)); simpl;
    [| discriminate].
  destruct (match Room.ImageFont_truetype W with
            | Ok font => Ok font
            | Raise _ => Room.ImageFont_load_default W
            end) as [font |]; simpl; [| discriminate].
  destruct (Room.draw_text W image _ _ font); simpl; [| discriminate].
  destruct (Room.normalize x1 img_width) as [n1 |] eqn:Ha; simpl;
    [| discriminate].
  destruct (Room.normalize y1 img_height) as [n2 |] eqn:Hb; simpl;
    [| discriminate].
  destruct (Room.normalize x2 img_width) as [n3 |] eqn:Hc; simpl;
    [| discriminate].
  destruct (Room.normalize y2 img_height) as [n4 |] eqn:He; simpl;
    [| discriminate].
  apply normalize_ok in Ha, Hb, Hc, He.
  destruct Ha as [_ ->], Hb as [_ ->], Hc as [_ ->], He as [_ ->].
  intros H. injection H as <-. reflexivity.
Qed.

Lemma process_boxes_ok (W : Room.World) (image : Room.PILImage)
      (img_width img_height : Z) (boxes : list Room.Box) :
  forall (i : nat) (ds : list Room.Detection),
    Room.process_boxes W image img_width img_height i boxes = Ok ds ->
    ds = imap (fun j => RoomSpec.detection_of img_width img_height (i + j))
              boxes.
Proof.
  induction boxes as [| box rest IH]; intros i ds; simpl.
  - intros H. injection H as <-. reflexivity.
  - destruct (Room.process_box W image img_width img_height i box)
      as [d |] eqn:Hd; simpl; [| discriminate].
    destruct (Room.process_boxes W image img_width img_height (S i) rest)
      as [ds' |] eqn:Hds; simpl; [| discriminate].
    intros H. injection H as <-.
    apply process_box_ok in Hd. apply IH in Hds. subst d ds'.
    rewrite Nat.add_0_r. f_equal.
    apply imap_ext. intros j x _. simpl. f_equal. lia.
Qed.

Lemma process_results_ok (W : Room.World) (image : Room.PILImage)
      (img_width img_height : Z) (results : list Room.Results) :
  forall ds : list Room.Detection,
    Room.process_results W image img_width img_height results = Ok ds ->
    ds = RoomSpec.detections_of img_width img_height results.
Proof.
  induction results as [| r rest IH]; intros ds; simpl.
  - intros H. injection H as <-. reflexivity.
  - destruct (Room.boxes r) as [bs |] eqn:Hbs; simpl.
    + destruct (Room.process_boxes W image img_width img_height 0 bs)
        as [rooms |] eqn:Hrooms; simpl; [| discriminate].
      destruct (Room.process_results W image img_width img_height rest)
        as [more |] eqn:Hmore; simpl; [| discriminate].
      intros H. injection H as <-.
      apply process_boxes_ok in Hrooms. rewrite (IH more eq_refl).
      subst rooms. reflexivity.
    + destruct (Room.process_results W image img_width img_height rest)
        as [more |] eqn:Hmore; simpl; [| discriminate].
      intros H. injection H as <-. rewrite (IH more eq_refl). reflexivity.
Qed.

Lemma int_of_float_nonneg (q : Q) : (0 <= q)%Q -> int_of_float q = Qfloor q.
Proof.
  intros Hq. unfold int_of_float, Qfloor. destruct q as [n d]. simpl.
  apply Z.quot_div_nonneg; [| lia].
  unfold Qle in Hq. simpl in Hq. lia.
Qed.

Lemma normalize_truncated_range (coord : Q) (dimension : Z) :
  (0 < dimension)%Z -> (0 <= coord)%Q -> (coord <= inject_Z dimension)%Q ->
  (0 <= RoomSpec.normalize_truncated coord dimension <= 1000)%Z.
Proof.
  intros Hd H0 H1. unfold RoomSpec.normalize_truncated.
  assert (Hpos : (0 < inject_Z dimension)%Q)
    by (rewrite <- (Zlt_Qlt 0); exact Hd).
  assert (Hlo : (0 <= coord / inject_Z dimension)%Q).
  { apply Qle_shift_div_l; [exact Hpos |]. rewrite Qmult_0_l. exact H0. }
  assert (Hhi : (coord / inject_Z dimension <= 1)%Q).
  { apply Qle_shift_div_r; [exact Hpos |]. rewrite Qmult_1_l. exact H1. }
  assert (Hlo' : (0 <= coord / inject_Z dimension * 1000)%Q).
  { apply Qmult_le_0_compat; [exact Hlo | discriminate]. }
  assert (Hhi' : (coord / inject_Z dimension * 1000 <= 1000)%Q).
  { apply Qle_trans with (1 * 1000)%Q; [| discriminate].
    apply Qmult_le_compat_r; [exact Hhi | discriminate]. }
  rewrite int_of_float_nonneg by exact Hlo'.
  split.
  - change 0%Z with (Qfloor 0). apply Qfloor_resp_le. exact Hlo'.
  - change 1000%Z with (Qfloor 1000). apply Qfloor_resp_le. exact Hhi'.
Qed.

Lemma format_03d_three_digits (n : nat) :
  (1 <= n <= 999)%nat -> String.length (Room.format_03d n) = 3%nat.
Proof.
  intros Hn.
  assert (Hall : forallb (fun k => String.length (Room.format_03d k) =? 3)%nat
                         (seq 1 999) = true) by (vm_compute; reflexivity).
  rewrite forallb_forall in Hall.
  apply Nat.eqb_eq, Hall, in_seq. lia.
Qed.


Lemma try_inference_ok (W : Room.World) (image_data : bytes)
      (model_id : string) (loaded_models lm' : gmap string Model)
      (response : Room.Response) :
  Room.try_inference W image_data model_id loaded_models = (Ok response, lm') ->
  exists (image : Room.PILImage) (model : Model) (results : list Room.Results)
         (png : string),
    Room.Image_open W image_data = Ok image
    /\ Room.model_call W model image = Ok results
    /\ Room.save_png_base64 W image results = Ok png
    /\ response
       = {| Room.detections :=
              RoomSpec.detections_of (Room.size image).1 (Room.size image).2
                                     results;
            Room.annotated_image := Some png |}.
Proof.
  unfold Room.try_inference.
  destruct (Room.Image_open W image_data) as [image |]; [| discriminate].
  destruct (Room.size image) as [w h] eqn:Hsize.
  destruct (Room.load_model W (Room.recursion_limit W) model_id loaded_models)
    as [[model |] lm'']; simpl; [| discriminate].
  destruct (Room.model_call W model image) as [results |] eqn:Hcall; simpl;
    [| discriminate].
  destruct (Room.process_results W image w h results) as [ds |] eqn:Hds;
    simpl; [| discriminate].
  destruct (Room.save_png_base64 W image results) as [png |] eqn:Hpng; simpl;
    [| discriminate].
  intros H. injection H as <- _.
  apply process_results_ok in Hds. subst ds.
  exists image, model, results, png. rewrite Hsize. auto.
Qed.

(** C5, as stated, fails: a box [1, 1, 2, 2] on an image of 1600 by 1600
    pixels is reported as [0, 0, 1, 1] (1/1600*1000 = 0.625 is truncated to
    0), where rounding gives [1, 1, 1, 1]. *)
Lemma C5_counterexample :
  (Room.perform_inference Examples.room_world_ok Examples.image_bytes
                          "default" ∅).1
  = {| Room.detections :=
         [ {| Room.id := "room_001";
              Room.bounding_box := (0, 0, 1, 1)%Z;
              Room.name_hint := "room" |} ];
       Room.annotated_image := Some "iVBORw0KGgo=" |}
  /\ (RoomSpec.normalize_rounded 1 1600, RoomSpec.normalize_rounded 1 1600,
      RoomSpec.normalize_rounded 2 1600, RoomSpec.normalize_rounded 2 1600)
     = (1, 1, 1, 1)%Z.
Proof. split; vm_compute; reflexivity. Qed.

(** C5 (amended): in the room-detection service the detections computed from
    the detector's results are, for each result in turn, one detection per
    box, whose coordinates are [int(coord / image_dimension * 1000)], the
    quotient truncated toward zero (not rounded), whose name hint is "room"
    and whose identifier is "room_" followed by the 1-based index of the box
    within its result, zero-padded to three digits at least. A coordinate
    between 0 and the image dimension gives an integer between 0 and 1000,
    an index up to 999 gives exactly three digits, and the box
    [100, 100, 200, 200] on a 1000 by 1000 image gives
    [100, 100, 200, 200]. *)
Theorem C5_room_boxes_truncated :
  (forall (W : Room.World) (image_data : bytes) (model_id : string)
          (loaded_models lm' : gmap string Model) (response : Room.Response),
      Room.try_inference W image_data model_id loaded_models
      = (Ok response, lm') ->
      exists (image : Room.PILImage) (model : Model)
             (results : list Room.Results),
        Room.Image_open W image_data = Ok image
        /\ Room.model_call W model image = Ok results
        /\ Room.detections response
           = RoomSpec.detections_of (Room.size image).1 (Room.size image).2
                                    results)
  /\ (forall (img_width img_height : Z) (i : nat) (x1 y1 x2 y2 conf : Q),
         RoomSpec.detection_of img_width img_height i
           {| Room.xyxy := (x1, y1, x2, y2); Room.box_conf := conf |}
         = {| Room.id := ("room_" ++ Room.format_03d (i + 1))%string;
              Room.bounding_box :=
                (int_of_float (x1 / inject_Z img_width * 1000)%Q,
                 int_of_float (y1 / inject_Z img_height * 1000)%Q,
                 int_of_float (x2 / inject_Z img_width * 1000)%Q,
                 int_of_float (y2 / inject_Z img_height * 1000)%Q);
              Room.name_hint := "room" |})
  /\ (forall (coord : Q) (dimension : Z),
         (0 < dimension)%Z -> (0 <= coord)%Q ->
         (coord <= inject_Z dimension)%Q ->
         (0 <= RoomSpec.normalize_truncated coord dimension <= 1000)%Z)
  /\ (forall n : nat,
         (1 <= n <= 999)%nat -> String.length (Room.format_03d n) = 3%nat)
  /\ RoomSpec.detection_of 1000 1000 0 RoomSpec.box_100_200
     = {| Room.id := "room_001";
          Room.bounding_box := (100, 100, 200, 200)%Z;
          Room.name_hint := "room" |}.
Proof.
  split; [| split; [| split; [| split]]].
  - intros W image_data model_id lm lm' response H.
    destruct (try_inference_ok _ _ _ _ _ _ H)
      as (image & model & results & png & Hopen & Hcall & _ & ->).
    exists image, model, results. auto.
  - reflexivity.
  - exact normalize_truncated_range.
  - exact format_03d_three_digits.
  - vm_compute. reflexivity.
Qed.

Lemma C5_room_boxes_truncated_witness :
  (exists (image : Room.PILImage) (model : Model)
          (results : list Room.Results),
      Room.Image_open Examples.room_world_ok Examples.image_bytes = Ok image
      /\ Room.model_call Examples.room_world_ok model image = Ok results
      /\ [ {| Room.id := "room_001";
              Room.bounding_box := (0, 0, 1, 1)%Z;
              Room.name_hint := "room" |} ]
         = RoomSpec.detections_of (Room.size image).1 (Room.size image).2
                                  results)
  /\ (0 <= RoomSpec.normalize_truncated 1 1600 <= 1000)%Z
  /\ String.length (Room.format_03d 7) = 3%nat.
Proof.
  destruct C5_room_boxes_truncated as (Htry & _ & Hrange & Hdigits & _).
  split; [| split].
  - apply (Htry Examples.room_world_ok Examples.image_bytes "default" ∅
             {[ "room-detect-1class-20ep" := YoloModel 1 ]}
             {| Room.detections :=
                  [ {| Room.id := "room_001";
                       Room.bounding_box := (0, 0, 1, 1)%Z;
                       Room.name_hint := "room" |} ];
                Room.annotated_image := Some "iVBORw0KGgo=" |}).
    vm_compute. reflexivity.
  - apply Hrange; [lia | discriminate | discriminate].
  - apply Hdigits. lia.
Defined.


(** ** The services end to end *)

Lemma roof_main_outcome (W : Roof.World) (stdin : bytes) :
  Roof.main W stdin
  = match ServiceSpec.roof_outcome W stdin with
    | Ok r => [Roof.json_of_response r]
    | Raise e => [error_document (Roof.format_exc W (Roof.recursion_limit W) stdin) e]
    end.
Proof.
  unfold Roof.main, ServiceSpec.roof_outcome.
  destruct (Roof.read_request stdin) as [[[model_id confidence] data] | e];
    simpl; [| reflexivity].
  destruct (Roof.perform_inference W data model_id confidence ∅).1;
    reflexivity.
Qed.

Lemma room_main_outcome (W : Room.World) (stdin : bytes) :
  Room.main W stdin
  = match ServiceSpec.room_outcome W stdin with
    | Ok r => [Room.json_of_response r]
    | Raise e => [error_document (Room.format_exc W (Room.recursion_limit W) stdin) e]
    end.
Proof.
  unfold Room.main, ServiceSpec.room_outcome.
  destruct (Room.read_request stdin) as [[model_id data] | e]; reflexivity.
Qed.

(** C1: whatever the input bytes and whatever the libraries do, each service
    has written exactly one JSON document on standard output when it ends:
    the result object when decoding and inference succeeded, and otherwise
    the object whose keys are "error" and "traceback", holding the message
    and the traceback of the exception. *)
Theorem C1_exactly_one_document :
  (forall (W : Roof.World) (stdin : bytes),
      length (Roof.main W stdin) = 1%nat
      /\ match ServiceSpec.roof_outcome W stdin with
         | Ok r => Roof.main W stdin = [Roof.json_of_response r]
         | Raise e =>
           Roof.main W stdin
           = [JObj [("error", JStr (exn_msg e));
                    ("traceback", JStr (Roof.format_exc W (Roof.recursion_limit W) stdin e))]]
         end)
  /\ (forall (W : Room.World) (stdin : bytes),
         length (Room.main W stdin) = 1%nat
         /\ match ServiceSpec.room_outcome W stdin with
            | Ok r => Room.main W stdin = [Room.json_of_response r]
            | Raise e =>
              Room.main W stdin
              = [JObj [("error", JStr (exn_msg e));
                       ("traceback", JStr (Room.format_exc W (Room.recursion_limit W) stdin e))]]
            end).
Proof.
  split; intros W stdin.
  - rewrite roof_main_outcome.
    destruct (ServiceSpec.roof_outcome W stdin); split; reflexivity.
  - rewrite room_main_outcome.
    destruct (ServiceSpec.room_outcome W stdin); split; reflexivity.
Qed.

(** *** The damage service: which failures reach the error document *)

Ltac break_failure :=
  repeat match goal with
         | H : _ \/ _ |- _ => destruct H
         | H : _ /\ _ |- _ => destruct H
         | H : ex _ |- _ => destruct H
         end;
  simplify_eq; try congruence.

Ltac name_stage :=
  repeat first
         [ left; congruence
         | split; [eexists; eassumption | congruence]
         | right; eexists; split; [first [reflexivity | eassumption] |]
         | right ].

Lemma roof_perform_inference_raises (W : Roof.World) (image_data : bytes)
      (model_id : string) (conf_threshold : Roof.Confidence)
      (loaded_models : gmap string Model) (e : exn) :
  (Roof.perform_inference W image_data model_id conf_threshold
                          loaded_models).1 = Raise e
  <-> ServiceSpec.roof_stage_failure W image_data model_id conf_threshold
                                     loaded_models e.
Proof.
  unfold Roof.perform_inference, ServiceSpec.roof_stage_failure.
  destruct (Roof.load_model W (Roof.recursion_limit W) model_id loaded_models)
    as [[model | e0] lm]; simpl.
  2: { split; intros H; [name_stage | break_failure]. }
  destruct (Roof.Image_open W image_data) as [pil | e1]; simpl.
  2: { split; intros H; [name_stage | break_failure]. }
  destruct (Roof.np_array_shape W pil) as [shape | e2] eqn:Hshape; simpl.
  2: { split; intros H; [name_stage | break_failure]. }
  destruct (Roof.image_dimensions shape) as [[h w] | e3] eqn:Hdims; simpl.
  2: { split; intros H; [name_stage | break_failure]. }
  destruct (Roof.model_call W model pil conf_threshold) as [results | e4]
    eqn:Hcall; simpl.
  2: { split; intros H; [name_stage | break_failure]. }
  split; intros H; [destruct results; discriminate | break_failure].
Qed.

(** An overlay that cannot be rendered changes the annotated image alone. *)
Lemma roof_overlay_failure_frame (W : Roof.World)
      (failure : Roof.Results -> exn) (image_data : bytes)
      (model_id : string) (conf_threshold : Roof.Confidence)
      (loaded_models : gmap string Model) :
  Roof.perform_inference
    (ServiceSpec.with_overlay W (fun r => Raise (failure r)))
    image_data model_id conf_threshold loaded_models
  = (ServiceSpec.map_result ServiceSpec.without_overlay
       (Roof.perform_inference W image_data model_id conf_threshold
                               loaded_models).1,
     (Roof.perform_inference W image_data model_id conf_threshold
                             loaded_models).2).
Proof.
  unfold Roof.perform_inference, Roof.load_model, Roof.find_model_path.
  simpl.
  destruct (load_model _ _ _ _ _ _ _) as [[model | e0] lm]; simpl;
    [| reflexivity].
  destruct (Roof.Image_open W image_data) as [pil | e1]; simpl;
    [| reflexivity].
  destruct (Roof.np_array_shape W pil) as [shape | e2]; simpl;
    [| reflexivity].
  destruct (Roof.image_dimensions shape) as [[h w] | e3]; simpl;
    [| reflexivity].
  destruct (Roof.model_call W model pil conf_threshold) as [results | e4];
    simpl; [| reflexivity].
  destruct results; reflexivity.
Qed.

(** The cost estimate of a response is the heuristic one. *)
Lemma roof_cost_is_heuristic (W : Roof.World) (image_data : bytes)
      (model_id : string) (conf_threshold : Roof.Confidence)
      (loaded_models : gmap string Model) :
  match (Roof.perform_inference W image_data model_id conf_threshold
                                loaded_models).1 with
  | Ok r => Roof.cost_estimate r = Roof.estimate_cost (Roof.detections r)
  | Raise _ => True
  end.
Proof.
  unfold Roof.perform_inference.
  destruct (Roof.load_model _ _ _ _) as [[model | e0] lm]; simpl;
    [| exact I].
  destruct (Roof.Image_open W image_data) as [pil | e1]; simpl; [| exact I].
  destruct (Roof.np_array_shape W pil) as [shape | e2]; simpl; [| exact I].
  destruct (Roof.image_dimensions shape) as [[h w] | e3]; simpl; [| exact I].
  destruct (Roof.model_call W model pil conf_threshold) as [results | e4];
    simpl; [| exact I].
  destruct results; reflexivity.
Qed.

Lemma roof_openai_irrelevant (W : Roof.World) (available : bool)
      (api_key : option string)
      (reply : string -> string -> list Roof.Detection -> Z -> Z
               -> result json)
      (stdin : bytes) :
  Roof.main (ServiceSpec.with_openai W available api_key reply) stdin
  = Roof.main W stdin.
Proof. reflexivity. Qed.


(** *** The room service: every failure of inference becomes the mock *)

Lemma room_perform_inference_cases (W : Room.World) (image_data : bytes)
      (model_id : string) (loaded_models : gmap string Model) :
  match (Room.try_inference W image_data model_id loaded_models).1 with
  | Ok response =>
    (Room.perform_inference W image_data model_id loaded_models).1 = response
  | Raise _ =>
    (Room.perform_inference W image_data model_id loaded_models).1
    = ServiceSpec.mock_response image_data
  end.
Proof.
  unfold Room.perform_inference.
  destruct (Room.try_inference W image_data model_id loaded_models)
    as [[response | e] lm]; reflexivity.
Qed.

(** C4, as stated, fails. Room service: with the default weights on disk
    but not loadable, and with no weights at all, a well-formed request for
    the default model is answered by the success document with the two mock
    detections, not by the error document. Damage service: a well-formed
    request whose model loads but whose image cannot be decoded is answered
    by the error document. *)
Lemma C4_counterexample :
  Room.main Examples.room_world_corrupt_default Examples.room_request_default
  = [Room.json_of_response (ServiceSpec.mock_response Examples.image_bytes)]
  /\ Room.main Examples.room_world_no_models Examples.room_request_default
     = [Room.json_of_response (ServiceSpec.mock_response Examples.image_bytes)]
  /\ (Roof.read_request Examples.roof_request_default
      = Ok ("default", Roof.Float32 Examples.threshold_bytes,
            Examples.image_bytes)
      /\ (Roof.load_model Examples.roof_world_bad_image 997 "default" ∅).1
         = Ok (YoloModel 1)
      /\ Roof.main Examples.roof_world_bad_image Examples.roof_request_default
         = [error_document
              (Examples.traceback_of 997 Examples.roof_request_default)
              Examples.cannot_identify_image]).
Proof. repeat split; vm_compute; reflexivity. Qed.

(** C4 (amended). Room service: the error document is printed exactly when
    the request decoder raises; once the request is decoded, the success
    document is printed, and whatever is raised inside [perform_inference]
    (image decoding, model resolution, the load of the default model
    included, the detector) turns it into the two mock detections with a
    null annotated image. Damage service: the error document is printed when
    the decoder raises and when [perform_inference] raises, which it does
    exactly when model resolution, image decoding or the detector raises;
    rendering the overlay never makes it raise. *)
Theorem C4_error_document_paths :
  (forall (W : Room.World) (stdin : bytes),
      match Room.read_request stdin with
      | Raise e => Room.main W stdin = [error_document (Room.format_exc W (Room.recursion_limit W) stdin) e]
      | Ok (model_id, image_data) =>
        Room.main W stdin
        = [Room.json_of_response
             (Room.perform_inference W image_data model_id ∅).1]
        /\ match (Room.try_inference W image_data model_id ∅).1 with
           | Ok response =>
             (Room.perform_inference W image_data model_id ∅).1 = response
           | Raise _ =>
             (Room.perform_inference W image_data model_id ∅).1
             = {| Room.detections := Room.get_mock_results image_data;
                  Room.annotated_image := None |}
           end
      end)
  /\ (forall (W : Roof.World) (stdin : bytes),
         match Roof.read_request stdin with
         | Raise e =>
           Roof.main W stdin = [error_document (Roof.format_exc W (Roof.recursion_limit W) stdin) e]
         | Ok (model_id, confidence, image_data) =>
           match (Roof.perform_inference W image_data model_id confidence
                                         ∅).1 with
           | Raise e =>
             Roof.main W stdin = [error_document (Roof.format_exc W (Roof.recursion_limit W) stdin) e]
           | Ok response =>
             Roof.main W stdin = [Roof.json_of_response response]
           end
         end)
  /\ (forall (W : Roof.World) (image_data : bytes) (model_id : string)
             (conf_threshold : Roof.Confidence)
             (loaded_models : gmap string Model) (e : exn),
         (Roof.perform_inference W image_data model_id conf_threshold
                                 loaded_models).1 = Raise e
         <-> ServiceSpec.roof_stage_failure W image_data model_id
                                            conf_threshold loaded_models e)
  /\ (forall (W : Roof.World) (failure : Roof.Results -> exn)
             (image_data : bytes) (model_id : string)
             (conf_threshold : Roof.Confidence)
             (loaded_models : gmap string Model),
         raises (Roof.perform_inference
                   (ServiceSpec.with_overlay W (fun r => Raise (failure r)))
                   image_data model_id conf_threshold loaded_models).1
         = raises (Roof.perform_inference W image_data model_id conf_threshold
                                          loaded_models).1).
Proof.
  split; [| split; [| split]].
  - intros W stdin. unfold Room.main.
    destruct (Room.read_request stdin) as [[model_id data] | e]; simpl;
      [| reflexivity].
    split; [reflexivity |].
    apply room_perform_inference_cases.
  - intros W stdin. unfold Roof.main.
    destruct (Roof.read_request stdin) as [[[model_id confidence] data] | e];
      simpl; [| reflexivity].
    destruct (Roof.perform_inference W data model_id confidence ∅).1;
      reflexivity.
  - exact roof_perform_inference_raises.
  - intros W failure data model_id conf lm.
    rewrite roof_overlay_failure_frame. simpl.
    destruct (Roof.perform_inference W data model_id conf lm).1; reflexivity.
Qed.

(** C7 (the code departs from the claim in the room service). With the
    detector reporting one box, the room service answers with that box when
    the annotated PNG can be written, and with the two mock detections, the
    real one lost, when it cannot. In the damage service an overlay that
    cannot be rendered changes the annotated image alone: the response is the
    one of the same world with a working overlay, its annotated image made
    null, and the cache is the same. *)
Theorem C7_overlay_failure :
  ((Room.perform_inference Examples.room_world_ok Examples.image_bytes
                           "default" ∅).1
   = {| Room.detections :=
          [ {| Room.id := "room_001";
               Room.bounding_box := (0, 0, 1, 1)%Z;
               Room.name_hint := "room" |} ];
        Room.annotated_image := Some "iVBORw0KGgo=" |}
   /\ (Room.perform_inference Examples.room_world_png_fails
                              Examples.image_bytes "default" ∅).1
      = {| Room.detections :=
             [ {| Room.id := "room_001";
                  Room.bounding_box := (50, 50, 200, 300)%Z;
                  Room.name_hint := "room" |};
               {| Room.id := "room_002";
                  Room.bounding_box := (250, 50, 700, 500)%Z;
                  Room.name_hint := "room" |} ];
           Room.annotated_image := None |})
  /\ (forall (W : Roof.World) (failure : Roof.Results -> exn)
             (image_data : bytes) (model_id : string)
             (conf_threshold : Roof.Confidence)
             (loaded_models : gmap string Model),
         Roof.perform_inference
           (ServiceSpec.with_overlay W (fun r => Raise (failure r)))
           image_data model_id conf_threshold loaded_models
         = (ServiceSpec.map_result ServiceSpec.without_overlay
              (Roof.perform_inference W image_data model_id conf_threshold
                                      loaded_models).1,
            (Roof.perform_inference W image_data model_id conf_threshold
                                    loaded_models).2)).
Proof.
  split; [split; vm_compute; reflexivity |].
  exact roof_overlay_failure_frame.
Qed.

(** C10: the cost estimate of every response of the damage service is
    [estimate_cost] of its detections, and what the service prints does not
    depend on the OpenAI library being installed, on the credential
    [OPENAI_API_KEY] or on what the vision service would answer. *)
Theorem C10_cost_estimate_is_heuristic :
  (forall (W : Roof.World) (image_data : bytes) (model_id : string)
          (conf_threshold : Roof.Confidence)
          (loaded_models : gmap string Model),
      match (Roof.perform_inference W image_data model_id conf_threshold
                                    loaded_models).1 with
      | Ok r => Roof.cost_estimate r = Roof.estimate_cost (Roof.detections r)
      | Raise _ => True
      end)
  /\ (forall (W : Roof.World) (available : bool) (api_key : option string)
             (reply : string -> string -> list Roof.Detection -> Z -> Z
                      -> result json)
             (stdin : bytes),
         Roof.main (ServiceSpec.with_openai W available api_key reply) stdin
         = Roof.main W stdin)
  /\ (forall (W : Roof.World) (stdin : bytes),
         match ServiceSpec.roof_outcome W stdin with
         | Ok r =>
           field "cost_estimate" (Roof.json_of_response r)
           = Some (Roof.json_of_cost (Roof.estimate_cost (Roof.detections r)))
         | Raise _ => True
         end).
Proof.
  split; [exact roof_cost_is_heuristic |].
  split; [exact roof_openai_irrelevant |].
  intros W stdin. unfold ServiceSpec.roof_outcome.
  destruct (Roof.read_request stdin) as [[[model_id confidence] data] | e];
    simpl; [| exact I].
  pose proof (roof_cost_is_heuristic W data model_id confidence ∅) as H.
  destruct (Roof.perform_inference W data model_id confidence ∅).1 as [r |];
    [| exact I].
  simpl. rewrite H. reflexivity.
Qed.


(** *** The shape of the success documents *)

Lemma roof_dimensions_of_image (W : Roof.World) (image_data : bytes)
      (model_id : string) (conf_threshold : Roof.Confidence)
      (loaded_models : gmap string Model) :
  match (Roof.perform_inference W image_data model_id conf_threshold
                                loaded_models).1 with
  | Ok r =>
    exists (pil_image : Roof.PILImage) (shape : list Z),
      Roof.Image_open W image_data = Ok pil_image
      /\ Roof.np_array_shape W pil_image = Ok shape
      /\ Roof.image_dimensions shape
         = Ok (Roof.image_height r, Roof.image_width r)
  | Raise _ => True
  end.
Proof.
  unfold Roof.perform_inference.
  destruct (Roof.load_model _ _ _ _) as [[model | e0] lm]; simpl;
    [| exact I].
  destruct (Roof.Image_open W image_data) as [pil | e1]; simpl; [| exact I].
  destruct (Roof.np_array_shape W pil) as [shape | e2] eqn:Hshape; simpl;
    [| exact I].
  destruct (Roof.image_dimensions shape) as [[h w] | e3] eqn:Hdims; simpl;
    [| exact I].
  destruct (Roof.model_call W model pil conf_threshold) as [results | e4];
    simpl; [| exact I].
  destruct results; simpl; exists pil, shape; auto.
Qed.

(** C8, as stated, fails: the success document of the room service has the
    keys "detections" and "annotated_image" only; it carries no image
    dimensions. *)
Lemma C8_counterexample :
  exists doc : json,
    Room.main Examples.room_world_ok Examples.room_request_default = [doc]
    /\ keys doc = ["detections"; "annotated_image"]
    /\ field "image_width" doc = None
    /\ field "image_height" doc = None.
Proof. eexists. repeat split; vm_compute; reflexivity. Qed.

(** C8 (amended): every success document of the damage service has exactly
    the keys "detections" (a list), "cost_estimate", "image_width" and
    "image_height" (integers, the dimensions read off the decoded image) and
    "annotated_image" (a string or null); every success document of the room
    service has exactly the keys "detections" (a list) and "annotated_image"
    (a string or null), and neither image dimensions nor a cost estimate. *)
Theorem C8_response_shape :
  (forall r : Roof.Response,
      let doc := Roof.json_of_response r in
      keys doc = ["detections"; "cost_estimate"; "image_width";
                  "image_height"; "annotated_image"]
      /\ field "detections" doc
         = Some (JList (map Roof.json_of_detection (Roof.detections r)))
      /\ field "cost_estimate" doc
         = Some (Roof.json_of_cost (Roof.cost_estimate r))
      /\ field "image_width" doc = Some (JInt (Roof.image_width r))
      /\ field "image_height" doc = Some (JInt (Roof.image_height r))
      /\ field "annotated_image" doc
         = Some (match Roof.annotated_image r with
                 | Some base64 => JStr base64
                 | None => JNull
                 end))
  /\ (forall (W : Roof.World) (image_data : bytes) (model_id : string)
             (conf_threshold : Roof.Confidence)
             (loaded_models : gmap string Model),
         match (Roof.perform_inference W image_data model_id conf_threshold
                                       loaded_models).1 with
         | Ok r =>
           exists (pil_image : Roof.PILImage) (shape : list Z),
             Roof.Image_open W image_data = Ok pil_image
             /\ Roof.np_array_shape W pil_image = Ok shape
             /\ Roof.image_dimensions shape
                = Ok (Roof.image_height r, Roof.image_width r)
         | Raise _ => True
         end)
  /\ (forall r : Room.Response,
         let doc := Room.json_of_response r in
         keys doc = ["detections"; "annotated_image"]
         /\ field "detections" doc
            = Some (JList (map Room.json_of_detection (Room.detections r)))
         /\ field "annotated_image" doc
            = Some (match Room.annotated_image r with
                    | Some base64 => JStr base64
                    | None => JNull
                    end)
         /\ field "image_width" doc = None
         /\ field "image_height" doc = None
         /\ field "cost_estimate" doc = None)
  /\ (forall (W : Roof.World) (stdin : bytes),
         match ServiceSpec.roof_outcome W stdin with
         | Ok r => Roof.main W stdin = [Roof.json_of_response r]
         | Raise _ => True
         end)
  /\ (forall (W : Room.World) (stdin : bytes),
         match ServiceSpec.room_outcome W stdin with
         | Ok r => Room.main W stdin = [Room.json_of_response r]
         | Raise _ => True
         end).
Proof.
  split; [| split; [| split; [| split]]].
  - intros r doc. subst doc. repeat split.
  - exact roof_dimensions_of_image.
  - intros r doc. subst doc. repeat split.
  - intros W stdin. rewrite roof_main_outcome.
    destruct (ServiceSpec.roof_outcome W stdin); [reflexivity | exact I].
  - intros W stdin. rewrite room_main_outcome.
    destruct (ServiceSpec.room_outcome W stdin); [reflexivity | exact I].
Qed.


(** ** More on model resolution: the cache and the depth of the recursion *)

Section ResolverInvariants.
Variable find_model_path : string -> result (option Path).
Variable MODELS : gmap string string.
Variable fallback_ids : list string.
Variable YOLO : Path -> result Model.

Local Abbreviation load :=
  (load_model find_model_path MODELS fallback_ids YOLO).


(** What a call does to the cache: nothing when it raises; nothing when the
    handle was cached already; one new entry, holding the handle returned
    and never under the key ["default"], otherwise. *)
Lemma load_model_cache (depth : nat) :
  forall (model_id : string) (lm lm' : gmap string Model) (r : result Model),
    load depth model_id lm = (r, lm') ->
    match r with
    | Raise _ => lm' = lm
    | Ok m =>
      (lm' = lm /\ exists k, lm !! k = Some m)
      \/ (exists k, k <> "default" /\ lm !! k = None /\ lm' = <[k := m]> lm)
    end.
Proof.
  induction depth as [| depth IH]; intros model_id lm lm' r H.
  - simpl in H. injection H as <- <-. reflexivity.
  - destruct (lm !! model_id) as [m |] eqn:Hc.
    + simpl in H. rewrite Hc in H. injection H as <- <-. left. eauto.
    + destruct (decide (model_id = "default")) as [-> | Hne].
      * rewrite load_model_default in H by exact Hc.
        destruct (first_available find_model_path fallback_ids) as [[fid |] | e].
        -- eapply IH; exact H.
        -- injection H as <- <-. reflexivity.
        -- injection H as <- <-. reflexivity.
      * rewrite load_model_other in H by assumption.
        destruct (find_model_path model_id) as [[p |] | e0];
          [destruct (YOLO p) as [m | e] | |]; try (eapply IH; exact H).
        -- injection H as <- <-. right. exists model_id. auto.
        -- injection H as <- <-. reflexivity.
Qed.




(** Asking again for an identifier that resolved gives the same handle and
    leaves the cache as the first call left it. *)
Lemma load_model_again (depth : nat) :
  forall (model_id : string) (lm lm' : gmap string Model) (m : Model),
    load depth model_id lm = (Ok m, lm') ->
    load depth model_id lm' = (Ok m, lm').
Proof.
  induction depth as [| depth IH]; intros model_id lm lm' m H;
    [discriminate |].
  assert (Hcached : forall m1, lm !! model_id = None ->
                               lm' !! model_id = Some m1 ->
                               load (S depth) model_id lm' = (Ok m, lm')).
  { intros m1 Hn Hs. simpl. rewrite Hs.
    destruct (load_model_cache _ _ _ _ _ H)
      as [[-> _] | (k & _ & Hk & ->)]; [congruence |].
    destruct (decide (k = model_id)) as [-> | Hkne].
    - rewrite lookup_insert_eq in Hs. congruence.
    - rewrite lookup_insert_ne in Hs by exact Hkne. congruence. }
  destruct (lm !! model_id) as [m0 |] eqn:Hc.
  { simpl in H. rewrite Hc in H. injection H as <- <-.
    simpl. rewrite Hc. reflexivity. }
  destruct (lm' !! model_id) as [m1 |] eqn:Hc'; [eapply Hcached; eauto |].
  destruct (decide (model_id = "default")) as [-> | Hne].
  - rewrite load_model_default in H by exact Hc.
    rewrite load_model_default by exact Hc'.
    destruct (first_available find_model_path fallback_ids) as [[fid |] | e0];
      [apply IH with lm; exact H | discriminate | discriminate].
  - rewrite load_model_other in H by assumption.
    rewrite load_model_other by assumption.
    destruct (find_model_path model_id) as [[p |] | e0];
      [destruct (YOLO p) as [m2 | e] eqn:He | |];
      try (apply IH with lm; exact H); [| discriminate].
    injection H as <- <-. rewrite lookup_insert_eq in Hc'. discriminate.
Qed.

(** With no weights anywhere and an empty cache, every identifier ends in
    "No default model found". *)
Lemma load_model_nothing_installed (model_id : string) (k : nat) :
  (forall i, find_model_path i = Ok None) ->
  load (2 + k) model_id ∅ = (Raise no_default_model, ∅).
Proof.
  intros Hnone.
  assert (Hfirst : first_available find_model_path fallback_ids = Ok None).
  { induction fallback_ids as [| i ids IH]; simpl; [reflexivity |].
    rewrite Hnone. exact IH. }
  assert (Hdef : forall d, load (S d) "default" ∅ = (Raise no_default_model, ∅)).
  { intros d. rewrite load_model_default by apply lookup_empty.
    rewrite Hfirst. reflexivity. }
  destruct (decide (model_id = "default")) as [-> | Hne]; [apply Hdef |].
  change (2 + k)%nat with (S (S k)).
  rewrite load_model_other by (apply lookup_empty || exact Hne).
  rewrite Hnone. apply Hdef.
Qed.

Lemma load_model_nothing_installed_raises (depth : nat) (model_id : string) :
  (forall i, find_model_path i = Ok None) ->
  exists e, load depth model_id ∅ = (Raise e, ∅).
Proof.
  intros Hnone. revert model_id.
  induction depth as [| depth IH]; intros model_id; [simpl; eauto |].
  destruct (decide (model_id = "default")) as [-> | Hne].
  - rewrite load_model_default by apply lookup_empty.
    destruct (first_available find_model_path fallback_ids) as [[fid |] | e0];
      [apply IH | eauto | eauto].
  - rewrite load_model_other by (apply lookup_empty || exact Hne).
    rewrite Hnone. apply IH.
Qed.
End ResolverInvariants.


(** X1: [load_model] never evicts: the cache after a call contains the cache
    before it. A call that raises leaves the cache as it was; a call that
    returns a handle either found it in the cache, which it leaves as it was,
    or adds exactly one entry, which holds the handle returned and whose key
    is never ["default"]. *)
Theorem X1_load_model_cache_only_grows :
  (forall (W : Roof.World) (depth : nat) (model_id : string)
          (lm : gmap string Model),
      let out := Roof.load_model W depth model_id lm in
      lm ⊆ out.2
      /\ match out.1 with
         | Raise _ => out.2 = lm
         | Ok m =>
           (out.2 = lm /\ exists k, lm !! k = Some m)
           \/ (exists k, k <> "default" /\ lm !! k = None
                         /\ out.2 = <[k := m]> lm)
         end)
  /\ (forall (W : Room.World) (depth : nat) (model_id : string)
             (lm : gmap string Model),
         let out := Room.load_model W depth model_id lm in
         lm ⊆ out.2
         /\ match out.1 with
            | Raise _ => out.2 = lm
            | Ok m =>
              (out.2 = lm /\ exists k, lm !! k = Some m)
              \/ (exists k, k <> "default" /\ lm !! k = None
                            /\ out.2 = <[k := m]> lm)
            end).
Proof.
  assert (Hgen : forall fmp MODELS ids yolo depth model_id lm,
             let out := load_model fmp MODELS ids yolo depth model_id lm in
             lm ⊆ out.2
             /\ match out.1 with
                | Raise _ => out.2 = lm
                | Ok m =>
                  (out.2 = lm /\ exists k, lm !! k = Some m)
                  \/ (exists k, k <> "default" /\ lm !! k = None
                                /\ out.2 = <[k := m]> lm)
                end).
  { intros fmp MODELS ids yolo depth model_id lm out. subst out.
    destruct (load_model fmp MODELS ids yolo depth model_id lm)
      as [r lm'] eqn:H.
    pose proof (load_model_cache _ _ _ _ _ _ _ _ _ H) as Hc. simpl.
    split; [| exact Hc].
    destruct r as [m | e]; [| subst lm'; reflexivity].
    destruct Hc as [[-> _] | (k & _ & Hk & ->)]; [reflexivity |].
    apply insert_subseteq. exact Hk. }
  split; intros W depth model_id lm; apply Hgen.
Qed.

(** X2: a second request for an identifier that resolved returns the same
    handle and leaves the cache as the first request left it. *)
Theorem X2_load_model_second_request :
  (forall (W : Roof.World) (depth : nat) (model_id : string)
          (lm lm' : gmap string Model) (m : Model),
      Roof.load_model W depth model_id lm = (Ok m, lm') ->
      Roof.load_model W depth model_id lm' = (Ok m, lm'))
  /\ (forall (W : Room.World) (depth : nat) (model_id : string)
             (lm lm' : gmap string Model) (m : Model),
         Room.load_model W depth model_id lm = (Ok m, lm') ->
         Room.load_model W depth model_id lm' = (Ok m, lm')).
Proof.
  split; intros W depth model_id lm lm' m H;
    eapply load_model_again; exact H.
Qed.

Lemma X2_load_model_second_request_witness :
  Roof.load_model Examples.roof_world_ok 3 "my_custom_model"
                  {[ "roof_damage_nano_300ep" := YoloModel 1 ]}
  = (Ok (YoloModel 1), {[ "roof_damage_nano_300ep" := YoloModel 1 ]})
  /\ Room.load_model Examples.room_world_ok 3 "default"
                     {[ "room-detect-1class-20ep" := YoloModel 1 ]}
     = (Ok (YoloModel 1), {[ "room-detect-1class-20ep" := YoloModel 1 ]}).
Proof.
  destruct X2_load_model_second_request as [Hroof Hroom].
  split.
  - apply (Hroof Examples.roof_world_ok 3%nat "my_custom_model" ∅).
    reflexivity.
  - apply (Hroom Examples.room_world_ok 3%nat "default" ∅). reflexivity.
Defined.


Lemma roof_find_model_path_no_env (W : Roof.World) (model_id : string) :
  Roof.BUNDLED_MODELS_PATH W = None ->
  Roof.find_model_path W model_id = Ok None.
Proof. intros H. unfold Roof.find_model_path. rewrite H. reflexivity. Qed.

Lemma room_find_model_path_no_env (W : Room.World) (model_id : string) :
  Room.BUNDLED_MODELS_PATH W = None ->
  Room.path_exists W (Room.LOCAL_TRAINING_OUTPUT W) = Ok false ->
  Room.find_model_path W model_id = Ok None.
Proof.
  intros H Hl. unfold Room.find_model_path. rewrite H, Hl. reflexivity.
Qed.

(** X4: when [BUNDLED_MODELS_PATH] is not set (and, for the room service,
    there is no local training output), no identifier resolves. The damage
    service, with at least two frames for [load_model], answers every request
    it can decode with the error document of "No default model found -
    bundled model missing!"; the room service answers every request it can
    decode with the two mock detections. *)
Theorem X4_nothing_installed :
  (forall (W : Roof.World) (stdin : bytes),
      Roof.BUNDLED_MODELS_PATH W = None ->
      (2 <= Roof.recursion_limit W)%nat ->
      raises (Roof.read_request stdin) = false ->
      Roof.main W stdin
      = [JObj [("error",
                JStr "No default model found - bundled model missing!");
               ("traceback", JStr (Roof.format_exc W (Roof.recursion_limit W) stdin
                                      no_default_model))]])
  /\ (forall (W : Room.World) (stdin : bytes) (model_id : string)
             (image_data : bytes),
         Room.BUNDLED_MODELS_PATH W = None ->
         Room.path_exists W (Room.LOCAL_TRAINING_OUTPUT W) = Ok false ->
         Room.read_request stdin = Ok (model_id, image_data) ->
         Room.main W stdin
         = [Room.json_of_response
              {| Room.detections := Room.get_mock_results image_data;
                 Room.annotated_image := None |}]).
Proof.
  split.
  - intros W stdin Henv Hdepth Hreq. unfold Roof.main.
    destruct (Roof.read_request stdin) as [[[model_id conf] data] |];
      [| discriminate].
    simpl. unfold Roof.perform_inference, Roof.load_model.
    destruct (Roof.recursion_limit W) as [| [| k]]; [lia | lia |].
    rewrite (load_model_nothing_installed _ _ _ _ model_id k)
      by (intros i; apply roof_find_model_path_no_env; exact Henv).
    reflexivity.
  - intros W stdin model_id data Henv Hlocal Hreq. unfold Room.main.
    rewrite Hreq. simpl. do 2 f_equal.
    pose proof (room_perform_inference_cases W data model_id ∅) as Hcases.
    destruct (Room.try_inference W data model_id ∅) as [[response | e] lm]
      eqn:Htry; simpl in Hcases; [| exact Hcases].
    exfalso. unfold Room.try_inference in Htry.
    destruct (Room.Image_open W data) as [image |]; [| discriminate].
    destruct (Room.size image) as [w h].
    destruct (load_model_nothing_installed_raises
                (Room.find_model_path W) Room.MODELS Room.FALLBACK_IDS
                (Room.YOLO W) (Room.recursion_limit W) model_id) as [e0 He0].
    { intros i. apply room_find_model_path_no_env; assumption. }
    unfold Room.load_model in Htry. rewrite He0 in Htry. discriminate.
Qed.

Lemma X4_nothing_installed_witness :
  Roof.main MoreExamples.roof_world_no_env Examples.roof_request_ab
  = [JObj [("error", JStr "No default model found - bundled model missing!");
           ("traceback",
            JStr (Examples.traceback_of 997 Examples.roof_request_ab
                                        no_default_model))]]
  /\ Room.main MoreExamples.room_world_no_env Examples.room_request_ab
     = [Room.json_of_response
          {| Room.detections := Room.get_mock_results Examples.image_bytes;
             Room.annotated_image := None |}].
Proof.
  destruct X4_nothing_installed as [Hroof Hroom].
  split.
  - apply (Hroof MoreExamples.roof_world_no_env Examples.roof_request_ab);
      [reflexivity | simpl; lia | reflexivity].
  - apply (Hroom MoreExamples.room_world_no_env Examples.room_request_ab "ab"
                 Examples.image_bytes); reflexivity.
Defined.


(** ** More on the request decoder *)

Lemma read_nonempty_rest (n : nat) (l : bytes) :
  drop n l <> [] -> length (take n l) = n.
Proof.
  intros H. rewrite length_take.
  destruct (Nat.le_gt_cases (length l) n) as [Hle | Hgt]; [| lia].
  exfalso. apply H. apply drop_ge. exact Hle.
Qed.

Lemma model_id_ok (bs : bytes) (model_id : string) :
  match bs with [] => Ok "default" | _ => decode_utf8 bs end = Ok model_id ->
  utf8_valid bs = true /\ model_id = Spec.model_id_of bs.
Proof.
  destruct bs as [| b bs]; [intros H; injection H as <-; auto |].
  unfold decode_utf8.
  destruct (utf8_valid (b :: bs)); [| discriminate].
  intros H. injection H as <-. auto.
Qed.

(** X5: a request the decoder accepts is laid out exactly as the length
    prefix says, with no byte lost: four prefix bytes, as many identifier
    bytes as the prefix announces, valid as UTF-8, (in the damage service
    four threshold bytes,) and then the image bytes returned, of which there
    is at least one. In the damage service the threshold handed on is always
    the four bytes read: the literal 0.2 never goes with an accepted
    request. *)
Theorem X5_accepted_request_layout :
  (forall (stdin : bytes) (model_id : string) (image_data : bytes),
      Room.read_request stdin = Ok (model_id, image_data) ->
      exists id_bytes : bytes,
        stdin = take 4 stdin ++ id_bytes ++ image_data
        /\ length (take 4 stdin) = 4%nat
        /\ N.of_nat (length id_bytes) = int_from_bytes_big (take 4 stdin)
        /\ utf8_valid id_bytes = true
        /\ model_id = Spec.model_id_of id_bytes
        /\ image_data <> [])
  /\ (forall (stdin : bytes) (model_id : string)
             (confidence : Roof.Confidence) (image_data : bytes),
         Roof.read_request stdin = Ok (model_id, confidence, image_data) ->
         exists id_bytes threshold : bytes,
           stdin = take 4 stdin ++ id_bytes ++ threshold ++ image_data
           /\ length (take 4 stdin) = 4%nat
           /\ N.of_nat (length id_bytes) = int_from_bytes_big (take 4 stdin)
           /\ utf8_valid id_bytes = true
           /\ model_id = Spec.model_id_of id_bytes
           /\ length threshold = 4%nat
           /\ confidence = Roof.Float32 threshold
           /\ image_data <> []).
Proof.
  split.
  - intros stdin model_id image_data. unfold Room.read_request, read.
    destruct (length (take 4 stdin) =? 4)%nat eqn:H4; simpl; [| discriminate].
    apply Nat.eqb_eq in H4.
    set (n := N.to_nat (int_from_bytes_big (take 4 stdin))).
    destruct (match take n (drop 4 stdin) with
              | [] => Ok "default"
              | _ => decode_utf8 (take n (drop 4 stdin))
              end) as [mid |] eqn:Hid; simpl; [| discriminate].
    apply model_id_ok in Hid. destruct Hid as [Hvalid ->].
    destruct (drop n (drop 4 stdin)) as [| b rest] eqn:Hrest;
      [discriminate |].
    intros H. injection H as <- <-.
    exists (take n (drop 4 stdin)).
    assert (Hlen : length (take n (drop 4 stdin)) = n)
      by (apply read_nonempty_rest; rewrite Hrest; discriminate).
    repeat split; try assumption; try discriminate.
    + rewrite <- Hrest, !take_drop. reflexivity.
    + rewrite Hlen. subst n. apply N2Nat.id.
  - intros stdin model_id confidence image_data.
    unfold Roof.read_request, read.
    destruct (length (take 4 stdin) =? 4)%nat eqn:H4; simpl; [| discriminate].
    apply Nat.eqb_eq in H4.
    set (n := N.to_nat (int_from_bytes_big (take 4 stdin))).
    destruct (match take n (drop 4 stdin) with
              | [] => Ok "default"
              | _ => decode_utf8 (take n (drop 4 stdin))
              end) as [mid |] eqn:Hid; simpl; [| discriminate].
    apply model_id_ok in Hid. destruct Hid as [Hvalid ->].
    set (after := drop n (drop 4 stdin)).
    destruct (drop 4 after) as [| b rest] eqn:Hrest; [discriminate |].
    assert (Hthr : length (take 4 after) = 4%nat)
      by (apply read_nonempty_rest; rewrite Hrest; discriminate).
    rewrite Hthr. simpl.
    intros H. injection H as <- <- <-.
    assert (Hafter : after <> []).
    { intros Hnil. rewrite Hnil in Hrest. discriminate. }
    assert (Hlen : length (take n (drop 4 stdin)) = n)
      by (apply read_nonempty_rest; exact Hafter).
    exists (take n (drop 4 stdin)), (take 4 after).
    repeat split; try assumption; try discriminate.
    + rewrite <- Hrest. rewrite (take_drop 4 after). subst after.
      rewrite !take_drop. reflexivity.
    + rewrite Hlen. subst n. apply N2Nat.id.
Qed.

Lemma X5_accepted_request_layout_witness :
  (exists id_bytes : bytes,
      Examples.room_request_ab
      = take 4 Examples.room_request_ab ++ id_bytes ++ Examples.image_bytes
      /\ length (take 4 Examples.room_request_ab) = 4%nat
      /\ N.of_nat (length id_bytes)
         = int_from_bytes_big (take 4 Examples.room_request_ab)
      /\ utf8_valid id_bytes = true
      /\ "ab" = Spec.model_id_of id_bytes
      /\ Examples.image_bytes <> [])
  /\ (exists id_bytes threshold : bytes,
         Examples.roof_request_ab
         = take 4 Examples.roof_request_ab ++ id_bytes ++ threshold
                ++ Examples.image_bytes
         /\ length (take 4 Examples.roof_request_ab) = 4%nat
         /\ N.of_nat (length id_bytes)
            = int_from_bytes_big (take 4 Examples.roof_request_ab)
         /\ utf8_valid id_bytes = true
         /\ "ab" = Spec.model_id_of id_bytes
         /\ length threshold = 4%nat
         /\ Roof.Float32 Examples.threshold_bytes = Roof.Float32 threshold
         /\ Examples.image_bytes <> []).
Proof.
  destruct X5_accepted_request_layout as [Hroom Hroof].
  split.
  - apply (Hroom Examples.room_request_ab "ab" Examples.image_bytes).
    reflexivity.
  - apply (Hroof Examples.roof_request_ab "ab"
                 (Roof.Float32 Examples.threshold_bytes) Examples.image_bytes).
    reflexivity.
Defined.


(** ** Severity, rounding and the cost estimate *)

Open Scope Q_scope.

Lemma Qltb_true (a b : Q) : Roof.Qltb a b = true <-> a < b.
Proof.
  unfold Roof.Qltb. rewrite negb_true_iff.
  split.
  - intros H. apply Qnot_le_lt. intros Hle.
    apply Qle_bool_iff in Hle. congruence.
  - intros H. destruct (Qle_bool b a) eqn:E; [| reflexivity].
    apply Qle_bool_iff in E. exfalso. apply (Qlt_not_le _ _ H E).
Qed.

Lemma Qltb_false (a b : Q) : Roof.Qltb a b = false <-> b <= a.
Proof.
  unfold Roof.Qltb. rewrite negb_false_iff. apply Qle_bool_iff.
Qed.

Lemma clamp_bounds (x : Q) : 0 <= Roof.min_1 (Roof.max_0 x) <= 1.
Proof.
  unfold Roof.min_1, Roof.max_0.
  destruct (Roof.Qltb 0 x) eqn:H0;
    [apply Qltb_true in H0 | apply Qltb_false in H0].
  - destruct (Roof.Qltb x 1) eqn:H1;
      [apply Qltb_true in H1 | apply Qltb_false in H1]; lra.
  - destruct (Roof.Qltb 0 1) eqn:H1; lra.
Qed.

Lemma clamp_inside (x : Q) : 0 <= x <= 1 -> Roof.min_1 (Roof.max_0 x) == x.
Proof.
  intros [Hlo Hhi]. unfold Roof.min_1, Roof.max_0.
  destruct (Roof.Qltb 0 x) eqn:H0;
    [apply Qltb_true in H0 | apply Qltb_false in H0].
  - destruct (Roof.Qltb x 1) eqn:H1;
      [apply Qltb_true in H1 | apply Qltb_false in H1]; lra.
  - destruct (Roof.Qltb 0 1) eqn:H1;
      [apply Qltb_true in H1 | apply Qltb_false in H1]; lra.
Qed.

Lemma calculate_severity_bounds (bbox : Q * Q * Q * Q)
      (img_width img_height : Z) :
  0 <= Roof.calculate_severity bbox img_width img_height <= 1.
Proof.
  unfold Roof.calculate_severity. destruct bbox as [[[x y] w] h].
  destruct (0 <? img_width * img_height)%Z; [apply clamp_bounds | lra].
Qed.

(** [round] moves a number by half a unit at most, to an integer. *)
Lemma round_half_even_error (q : Q) :
  - (1 # 2) <= inject_Z (round_half_even q) - q <= 1 # 2.
Proof.
  unfold round_half_even.
  pose proof (Qfloor_le q) as Hlo.
  pose proof (Qlt_floor q) as Hhi.
  rewrite inject_Z_plus in Hhi. change (inject_Z 1) with 1 in Hhi.
  set (f := Qfloor q) in *.
  destruct (q - inject_Z f ?= 1 # 2) eqn:Hcmp.
  - apply Qeq_alt in Hcmp.
    destruct (Z.even f);
      [| rewrite inject_Z_plus; change (inject_Z 1) with 1]; lra.
  - apply Qlt_alt in Hcmp. lra.
  - apply Qgt_alt in Hcmp. rewrite inject_Z_plus.
    change (inject_Z 1) with 1. lra.
Qed.

Lemma round_half_even_between (a b : Z) (q : Q) :
  inject_Z a <= q <= inject_Z b ->
  (a <= round_half_even q <= b)%Z.
Proof.
  intros [Ha Hb].
  pose proof (round_half_even_error q) as [Hlo Hhi].
  assert (H1 : inject_Z a - (1 # 2) <= inject_Z (round_half_even q)) by lra.
  assert (H2 : inject_Z (round_half_even q) <= inject_Z b + (1 # 2)) by lra.
  revert H1 H2. generalize (round_half_even q). intros z H1 H2.
  unfold Qle, Qminus, Qplus, Qopp, inject_Z in H1, H2. simpl in H1, H2.
  lia.
Qed.

Lemma round2_between (a b : Z) (q : Q) :
  inject_Z a <= q <= inject_Z b ->
  inject_Z a <= round2 q <= inject_Z b.
Proof.
  intros [Ha Hb].
  assert (H : inject_Z (a * 100) <= q * 100 <= inject_Z (b * 100)).
  { rewrite !inject_Z_mult. change (inject_Z 100) with 100. split; lra. }
  apply round_half_even_between in H.
  unfold round2, Qle, inject_Z. simpl. lia.
Qed.

Lemma parse_box_bounds (img_width img_height : Z) (box : Roof.Box) :
  let d := Roof.parse_box img_width img_height box in
  0 <= Roof.d_severity d <= 1 /\ 0 <= Roof.d_affected_area_pct d <= 100.
Proof.
  unfold Roof.parse_box. destruct (Roof.xyxy box) as [[[x1 y1] x2] y2].
  cbv zeta. cbn [Roof.d_severity Roof.d_affected_area_pct].
  set (s := Roof.calculate_severity _ _ _).
  assert (Hs : 0 <= s <= 1) by apply calculate_severity_bounds.
  split; [exact Hs |].
  apply (round2_between 0 100).
  change (inject_Z 0) with 0. change (inject_Z 100) with 100.
  destruct Hs. split; lra.
Qed.


Lemma calculate_severity_ratio (x y w h : Q) (img_width img_height : Z) :
  (0 < img_width * img_height)%Z ->
  0 <= w * h -> w * h <= inject_Z (img_width * img_height) ->
  Roof.calculate_severity (x, y, w, h) img_width img_height
  == w * h / inject_Z (img_width * img_height).
Proof.
  intros Harea Hlo Hhi. unfold Roof.calculate_severity.
  destruct (Z.ltb_spec 0 (img_width * img_height)) as [_ | Hn]; [| lia].
  assert (Hpos : 0 < inject_Z (img_width * img_height))
    by (rewrite <- (Zlt_Qlt 0); exact Harea).
  apply clamp_inside. split.
  - apply Qle_shift_div_l; [exact Hpos | lra].
  - apply Qle_shift_div_r; [exact Hpos | lra].
Qed.

Lemma calculate_severity_saturates (x y w h : Q) (img_width img_height : Z) :
  (0 < img_width * img_height)%Z ->
  inject_Z (img_width * img_height) <= w * h ->
  Roof.calculate_severity (x, y, w, h) img_width img_height == 1.
Proof.
  intros Harea Hbig. unfold Roof.calculate_severity.
  destruct (Z.ltb_spec 0 (img_width * img_height)) as [_ | Hn]; [| lia].
  assert (Hpos : 0 < inject_Z (img_width * img_height))
    by (rewrite <- (Zlt_Qlt 0); exact Harea).
  assert (Hr : 1 <= w * h / inject_Z (img_width * img_height))
    by (apply Qle_shift_div_l; [exact Hpos | lra]).
  revert Hr. generalize (w * h / inject_Z (img_width * img_height)).
  intros r Hr. unfold Roof.min_1, Roof.max_0.
  destruct (Roof.Qltb 0 r) eqn:H0;
    [apply Qltb_true in H0 | apply Qltb_false in H0; lra].
  destruct (Roof.Qltb r 1) eqn:H1;
    [apply Qltb_true in H1; lra | reflexivity].
Qed.

Lemma calculate_severity_no_area (x y w h : Q) (img_width img_height : Z) :
  w * h <= 0 ->
  Roof.calculate_severity (x, y, w, h) img_width img_height == 0.
Proof.
  intros Hneg. unfold Roof.calculate_severity.
  destruct (Z.ltb_spec 0 (img_width * img_height)) as [Harea | _];
    [| reflexivity].
  assert (Hpos : 0 < inject_Z (img_width * img_height))
    by (rewrite <- (Zlt_Qlt 0); exact Harea).
  assert (Hr : w * h / inject_Z (img_width * img_height) <= 0)
    by (apply Qle_shift_div_r; [exact Hpos | lra]).
  revert Hr. generalize (w * h / inject_Z (img_width * img_height)).
  intros r Hr. unfold Roof.min_1, Roof.max_0.
  destruct (Roof.Qltb 0 r) eqn:H0;
    [apply Qltb_true in H0; lra | reflexivity].
Qed.

Lemma roof_response_detections (W : Roof.World) (image_data : bytes)
      (model_id : string) (conf_threshold : Roof.Confidence)
      (loaded_models : gmap string Model) :
  match (Roof.perform_inference W image_data model_id conf_threshold
                                loaded_models).1 with
  | Ok r =>
    exists (model : Model) (pil_image : Roof.PILImage)
           (results : list Roof.Results),
      Roof.model_call W model pil_image conf_threshold = Ok results
      /\ Roof.detections r
         = map (Roof.parse_box (Roof.image_width r) (Roof.image_height r))
               (match results with [] => [] | r0 :: _ => Roof.boxes r0 end)
  | Raise _ => True
  end.
Proof.
  unfold Roof.perform_inference.
  destruct (Roof.load_model _ _ _ _) as [[model | e0] lm]; simpl;
    [| exact I].
  destruct (Roof.Image_open W image_data) as [pil | e1]; simpl; [| exact I].
  destruct (Roof.np_array_shape W pil) as [shape | e2]; simpl; [| exact I].
  destruct (Roof.image_dimensions shape) as [[h w] | e3]; simpl; [| exact I].
  destruct (Roof.model_call W model pil conf_threshold) as [results | e4]
    eqn:Hcall; simpl; [| exact I].
  destruct results; simpl; exists model, pil; eauto.
Qed.

(** X6: the severity of a box is always between 0 and 1: it is the area of
    the box over the area of the image when that ratio lies between 0 and 1,
    1 when the box is larger than the image, and 0 when the box has no or a
    negative area or the image has no area. In every response of the damage
    service each detection has a severity between 0 and 1 and an affected
    area between 0 and 100 per cent. *)
Theorem X6_severity_clamped :
  (forall (bbox : Q * Q * Q * Q) (img_width img_height : Z),
      0 <= Roof.calculate_severity bbox img_width img_height <= 1)
  /\ (forall (x y w h : Q) (img_width img_height : Z),
         (0 < img_width * img_height)%Z ->
         0 <= w * h -> w * h <= inject_Z (img_width * img_height) ->
         Roof.calculate_severity (x, y, w, h) img_width img_height
         == w * h / inject_Z (img_width * img_height))
  /\ (forall (x y w h : Q) (img_width img_height : Z),
         (0 < img_width * img_height)%Z ->
         inject_Z (img_width * img_height) <= w * h ->
         Roof.calculate_severity (x, y, w, h) img_width img_height == 1)
  /\ (forall (x y w h : Q) (img_width img_height : Z),
         w * h <= 0 ->
         Roof.calculate_severity (x, y, w, h) img_width img_height == 0)
  /\ (forall (bbox : Q * Q * Q * Q) (img_width img_height : Z),
         (img_width * img_height <= 0)%Z ->
         Roof.calculate_severity bbox img_width img_height = 0)
  /\ (forall (W : Roof.World) (image_data : bytes) (model_id : string)
             (conf_threshold : Roof.Confidence)
             (loaded_models : gmap string Model),
         match (Roof.perform_inference W image_data model_id conf_threshold
                                       loaded_models).1 with
         | Ok r =>
           Forall (fun d => (0 <= Roof.d_severity d <= 1)
                            /\ (0 <= Roof.d_affected_area_pct d <= 100))
                  (Roof.detections r)
         | Raise _ => True
         end).
Proof.
  split; [exact calculate_severity_bounds |].
  split; [exact calculate_severity_ratio |].
  split; [exact calculate_severity_saturates |].
  split; [exact calculate_severity_no_area |].
  split.
  - intros [[[x y] w] h] img_width img_height Harea.
    unfold Roof.calculate_severity.
    destruct (Z.ltb_spec 0 (img_width * img_height)); [lia | reflexivity].
  - intros W data model_id conf lm.
    pose proof (roof_response_detections W data model_id conf lm) as H.
    destruct (Roof.perform_inference W data model_id conf lm).1 as [r |];
      [| exact I].
    destruct H as (model & pil & results & _ & ->).
    apply List.Forall_forall. intros d Hin. apply in_map_iff in Hin.
    destruct Hin as (box & <- & _). apply parse_box_bounds.
Qed.

Lemma X6_severity_clamped_witness :
  Roof.calculate_severity (0, 0, 10, 10) 100 100
  == 10 * 10 / inject_Z (100 * 100)
  /\ Roof.calculate_severity (0, 0, 200, 100) 100 100 == 1
  /\ Roof.calculate_severity (0, 0, -10, 10) 100 100 == 0
  /\ Roof.calculate_severity (0, 0, 10, 10) 0 100 = 0.
Proof.
  destruct X6_severity_clamped as (_ & Hratio & Hsat & Hneg & Hzero & _).
  split; [| split; [| split]].
  - apply Hratio; [lia | discriminate | discriminate].
  - apply Hsat; [lia | discriminate].
  - apply Hneg. discriminate.
  - apply Hzero. lia.
Defined.



Lemma unknown_class_base_cost (s : string) :
  Roof.CLASS_BASE_COSTS ("unknown_" ++ s)%string = None
  /\ Roof.in_disposal_classes ("unknown_" ++ s)%string = false.
Proof. split; reflexivity. Qed.

Lemma parse_box_class (img_width img_height : Z) (box : Roof.Box) :
  let d := Roof.parse_box img_width img_height box in
  default 100 (Roof.CLASS_BASE_COSTS (Roof.d_cls d))
  = (if ((Roof.box_cls box =? 0) || (Roof.box_cls box =? 1)
         || (Roof.box_cls box =? 2))%Z then 125
     else if (Roof.box_cls box =? 3)%Z then 90 else 100)
  /\ Roof.in_disposal_classes (Roof.d_cls d)
     = ((Roof.box_cls box =? 0) || (Roof.box_cls box =? 2))%Z.
Proof.
  unfold Roof.parse_box. destruct (Roof.xyxy box) as [[[x1 y1] x2] y2].
  cbv zeta. cbn [Roof.d_cls]. unfold Roof.unknown_class.
  generalize (str_of_Z (Roof.box_cls box)). intros s.
  destruct (unknown_class_base_cost s) as [Hc Hd].
  destruct (Roof.box_cls box) as [| [[p | p |] | [p | p |] |] | p];
    cbn [Roof.DAMAGE_CLASSES default]; rewrite ?Hc, ?Hd;
    split; reflexivity.
Qed.

(** X8: a detection made from a box of class 0, 1 or 2 is costed at 125.00,
    of class 3 at 90.00 and of any other class identifier at the default
    100.00; and the disposal fee of 25.00 is part of the estimate of a
    response exactly when the detector reported a box of class 0
    (missing_shingle) or 2 (torn_shingle). *)
Theorem X8_class_costs_and_disposal :
  (forall (img_width img_height : Z) (box : Roof.Box),
      let d := Roof.parse_box img_width img_height box in
      default 100 (Roof.CLASS_BASE_COSTS (Roof.d_cls d))
      = (if ((Roof.box_cls box =? 0) || (Roof.box_cls box =? 1)
             || (Roof.box_cls box =? 2))%Z then 125
         else if (Roof.box_cls box =? 3)%Z then 90 else 100))
  /\ (forall (img_width img_height : Z) (boxes : list Roof.Box),
         Roof.disposal_usd
           (Roof.estimate_cost
              (map (Roof.parse_box img_width img_height) boxes))
         == (if existsb (fun box => ((Roof.box_cls box =? 0)
                                     || (Roof.box_cls box =? 2))%Z) boxes
             then 25 else 0)).
Proof.
  split.
  - intros w h box. apply parse_box_class.
  - intros w h boxes. unfold Roof.estimate_cost. cbv zeta.
    cbn [Roof.disposal_usd].
    assert (He : existsb (fun d => Roof.in_disposal_classes (Roof.d_cls d))
                         (map (Roof.parse_box w h) boxes)
                 = existsb (fun box => ((Roof.box_cls box =? 0)
                                        || (Roof.box_cls box =? 2))%Z) boxes).
    { induction boxes as [| box boxes IH]; [reflexivity |].
      cbn [map existsb]. rewrite IH.
      destruct (parse_box_class w h box) as [_ ->]. reflexivity. }
    rewrite He. destruct (existsb _ boxes); reflexivity.
Qed.


(** ** More on room detections *)

Lemma int_of_float_nonpos (q : Q) : q <= 0 -> int_of_float q = (- Qfloor (- q))%Z.
Proof.
  intros Hq. unfold int_of_float, Qfloor. destruct q as [n d]. simpl.
  unfold Qle in Hq. simpl in Hq.
  assert (Hn : (n <= 0)%Z) by lia.
  rewrite <- (Z.opp_involutive n) at 1.
  rewrite Z.quot_opp_l by lia.
  rewrite Z.quot_div_nonneg by lia. reflexivity.
Qed.

(** Truncation toward zero never reverses an order. *)
Lemma int_of_float_monotone (p q : Q) :
  p <= q -> (int_of_float p <= int_of_float q)%Z.
Proof.
  intros Hpq.
  destruct (Qlt_le_dec p 0) as [Hp | Hp].
  - rewrite (int_of_float_nonpos p) by lra.
    destruct (Qlt_le_dec q 0) as [Hq | Hq].
    + rewrite (int_of_float_nonpos q) by lra.
      assert (H : (Qfloor (- q) <= Qfloor (- p))%Z)
        by (apply Qfloor_resp_le; lra).
      lia.
    + rewrite (int_of_float_nonneg q) by exact Hq.
      assert (H1 : (0 <= Qfloor (- p))%Z)
        by (change 0%Z with (Qfloor 0); apply Qfloor_resp_le; lra).
      assert (H2 : (0 <= Qfloor q)%Z)
        by (change 0%Z with (Qfloor 0); apply Qfloor_resp_le; lra).
      lia.
  - rewrite (int_of_float_nonneg p) by exact Hp.
    rewrite (int_of_float_nonneg q) by lra.
    apply Qfloor_resp_le. exact Hpq.
Qed.

Lemma normalize_monotone (c1 c2 : Q) (dimension z1 z2 : Z) :
  (0 < dimension)%Z -> c1 <= c2 ->
  Room.normalize c1 dimension = Ok z1 ->
  Room.normalize c2 dimension = Ok z2 ->
  (z1 <= z2)%Z.
Proof.
  intros Hd Hc H1 H2.
  apply normalize_ok in H1, H2. destruct H1 as [_ ->], H2 as [_ ->].
  unfold RoomSpec.normalize_truncated. apply int_of_float_monotone.
  assert (Hpos : 0 < inject_Z dimension)
    by (rewrite <- (Zlt_Qlt 0); exact Hd).
  apply Qmult_le_compat_r; [| discriminate].
  unfold Qdiv. apply Qmult_le_compat_r; [exact Hc |].
  apply Qlt_le_weak, Qinv_lt_0_compat. exact Hpos.
Qed.

(** X9: on an image of positive width and height, a box whose corners are
    in order ([x1 <= x2] and [y1 <= y2]) is reported with its normalized
    corners in order as well: truncation never turns a box inside out. *)
Theorem X9_normalized_box_keeps_its_orientation
        (W : Room.World) (image : Room.PILImage) (img_width img_height : Z)
        (i : nat) (x1 y1 x2 y2 conf : Q) (d : Room.Detection) :
  (0 < img_width)%Z -> (0 < img_height)%Z ->
  x1 <= x2 -> y1 <= y2 ->
  Room.process_box W image img_width img_height i
                   {| Room.xyxy := (x1, y1, x2, y2); Room.box_conf := conf |}
  = Ok d ->
  let '(x_min, y_min, x_max, y_max) := Room.bounding_box d in
  (x_min <= x_max)%Z /\ (y_min <= y_max)%Z.
Proof.
  intros Hw Hh Hx Hy. unfold Room.process_box. cbn [Room.xyxy Room.box_conf].
  destruct (Room.draw_rectangle W image (x1, y1, x2, y2)); simpl;
    [| discriminate].
  destruct (match Room.ImageFont_truetype W with
            | Ok font => Ok font
            | Raise _ => Room.ImageFont_load_default W
            end) as [font |]; simpl; [| discriminate].
  destruct (Room.draw_text W image _ _ font); simpl; [| discriminate].
  destruct (Room.normalize x1 img_width) as [n1 |] eqn:Ha; simpl;
    [| discriminate].
  destruct (Room.normalize y1 img_height) as [n2 |] eqn:Hb; simpl;
    [| discriminate].
  destruct (Room.normalize x2 img_width) as [n3 |] eqn:Hc; simpl;
    [| discriminate].
  destruct (Room.normalize y2 img_height) as [n4 |] eqn:He; simpl;
    [| discriminate].
  intros H. injection H as <-. simpl. split.
  - exact (normalize_monotone _ _ _ _ _ Hw Hx Ha Hc).
  - exact (normalize_monotone _ _ _ _ _ Hh Hy Hb He).
Qed.

Lemma X9_normalized_box_keeps_its_orientation_witness :
  (0 <= 1)%Z /\ (0 <= 1)%Z.
Proof.
  apply (X9_normalized_box_keeps_its_orientation
           Examples.room_world_ok Examples.room_image 1600 1600 0
           1 1 2 2 (9 # 10)
           {| Room.id := "room_001";
              Room.bounding_box := (0, 0, 1, 1)%Z;
              Room.name_hint := "room" |});
    [lia | lia | discriminate | discriminate | reflexivity].
Defined.


Lemma digits_value_leading_zero (s : string) :
  Digits.digits_value (String "0" s) = Digits.digits_value s.
Proof.
  unfold Digits.digits_value. simpl.
  destruct (NilEmpty.uint_of_string s); reflexivity.
Qed.

Lemma digits_value_str_of_Z (z : Z) :
  (0 <= z)%Z -> Digits.digits_value (str_of_Z z) = Some z.
Proof.
  intros Hz. unfold Digits.digits_value, str_of_Z.
  pose proof (DecimalZ.of_to z) as Hval.
  destruct z as [| p | p]; [reflexivity | | lia].
  simpl in *. unfold NilZero.string_of_uint.
  remember (Pos.to_uint p) as u eqn:Hu. clear Hu.
  destruct u; try discriminate;
    rewrite NilEmpty.usu; simpl; f_equal; exact Hval.
Qed.

Lemma digits_value_format_03d (n : nat) :
  Digits.digits_value (Room.format_03d n) = Some (Z.of_nat n).
Proof.
  unfold Room.format_03d.
  pose proof (digits_value_str_of_Z (Z.of_nat n) (Nat2Z.is_nonneg n)) as H.
  revert H. generalize (str_of_Z (Z.of_nat n)). intros s H.
  destruct (3 - String.length s)%nat as [| [| [| [| k]]]] eqn:E;
    try lia; lazy beta iota zeta delta [String.concat repeat String.append];
    rewrite ?digits_value_leading_zero; exact H.
Qed.

Lemma format_03d_injective (n m : nat) :
  Room.format_03d n = Room.format_03d m -> n = m.
Proof.
  intros H.
  pose proof (digits_value_format_03d n) as Hn.
  pose proof (digits_value_format_03d m) as Hm.
  rewrite H in Hn. rewrite Hn in Hm. injection Hm as Hm. lia.
Qed.

Lemma process_boxes_ids (W : Room.World) (image : Room.PILImage)
      (img_width img_height : Z) (boxes : list Room.Box)
      (ds : list Room.Detection) :
  Room.process_boxes W image img_width img_height 0 boxes = Ok ds ->
  length ds = length boxes
  /\ forall (j : nat) (d : Room.Detection),
      ds !! j = Some d ->
      Room.id d = ("room_" ++ Room.format_03d (j + 1))%string.
Proof.
  intros H. apply process_boxes_ok in H. subst ds. split.
  - apply length_imap.
  - intros j d Hj. rewrite list_lookup_imap in Hj.
    destruct (boxes !! j) as [box |]; [| discriminate].
    injection Hj as <-. unfold RoomSpec.detection_of.
    destruct (Room.xyxy box) as [[[x1 y1] x2] y2]. reflexivity.
Qed.

(** X10: the detections made from the boxes of one detector result are as
    many as the boxes, the one at 0-based position [j] is called "room_"
    followed by [j + 1] padded to three digits, and no two of them have the
    same identifier. Across results the numbering starts again: when two
    results each hold a box, the identifier "room_001" is given twice. *)
Theorem X10_room_identifiers :
  (forall (W : Room.World) (image : Room.PILImage) (img_width img_height : Z)
          (boxes : list Room.Box) (ds : list Room.Detection),
      Room.process_boxes W image img_width img_height 0 boxes = Ok ds ->
      length ds = length boxes
      /\ (forall (j : nat) (d : Room.Detection),
             ds !! j = Some d ->
             Room.id d = ("room_" ++ Room.format_03d (j + 1))%string)
      /\ NoDup (map Room.id ds))
  /\ (forall (W : Room.World) (image : Room.PILImage)
             (img_width img_height : Z) (b1 b2 : Room.Box)
             (bs1 bs2 : list Room.Box) (rest : list Room.Results)
             (ds : list Room.Detection),
         Room.process_results W image img_width img_height
           ({| Room.boxes := Some (b1 :: bs1) |}
              :: {| Room.boxes := Some (b2 :: bs2) |} :: rest) = Ok ds ->
         exists d1 d2 : Room.Detection,
           ds !! 0%nat = Some d1
           /\ ds !! (S (length bs1)) = Some d2
           /\ Room.id d1 = "room_001" /\ Room.id d2 = "room_001").
Proof.
  split.
  - intros W image w h boxes ds H.
    destruct (process_boxes_ids _ _ _ _ _ _ H) as [Hlen Hid].
    split; [exact Hlen |]. split; [exact Hid |].
    apply NoDup_alt. intros i j s Hi Hj.
    rewrite list_lookup_fmap in Hi, Hj.
    destruct (ds !! i) as [di |] eqn:Edi; [| discriminate].
    destruct (ds !! j) as [dj |] eqn:Edj; [| discriminate].
    simpl in Hi, Hj. injection Hi as Hi. injection Hj as Hj.
    rewrite (Hid _ _ Edi) in Hi. rewrite (Hid _ _ Edj) in Hj.
    rewrite <- Hj in Hi. simpl in Hi. injection Hi as Hi.
    apply format_03d_injective in Hi. lia.
  - intros W image w h b1 b2 bs1 bs2 rest ds H.
    apply process_results_ok in H. subst ds.
    unfold RoomSpec.detections_of. cbn [flat_map Room.boxes default].
    exists (RoomSpec.detection_of w h 0 b1), (RoomSpec.detection_of w h 0 b2).
    split; [reflexivity |]. split.
    + rewrite lookup_app_r by (rewrite length_imap; simpl; lia).
      rewrite length_imap. simpl (length _). rewrite Nat.sub_diag.
      reflexivity.
    + unfold RoomSpec.detection_of.
      destruct (Room.xyxy b1) as [[[? ?] ?] ?].
      destruct (Room.xyxy b2) as [[[? ?] ?] ?]. split; reflexivity.
Qed.

Lemma X10_room_identifiers_witness :
  (length [ {| Room.id := "room_001";
               Room.bounding_box := (0, 0, 1, 1)%Z;
               Room.name_hint := "room" |} ] = length [Examples.room_box]
   /\ NoDup (map Room.id
                 [ {| Room.id := "room_001";
                      Room.bounding_box := (0, 0, 1, 1)%Z;
                      Room.name_hint := "room" |} ]))
  /\ exists d1 d2 : Room.Detection,
      [ RoomSpec.detection_of 1600 1600 0 Examples.room_box;
        RoomSpec.detection_of 1600 1600 0 Examples.room_box ] !! 0%nat
      = Some d1
      /\ [ RoomSpec.detection_of 1600 1600 0 Examples.room_box;
           RoomSpec.detection_of 1600 1600 0 Examples.room_box ] !! 1%nat
         = Some d2
      /\ Room.id d1 = "room_001" /\ Room.id d2 = "room_001".
Proof.
  destruct X10_room_identifiers as [Hone Htwo].
  split.
  - destruct (Hone Examples.room_world_ok Examples.room_image 1600%Z 1600%Z
                   [Examples.room_box]
                   [ {| Room.id := "room_001";
                        Room.bounding_box := (0, 0, 1, 1)%Z;
                        Room.name_hint := "room" |} ] eq_refl)
      as (Hlen & _ & Hnodup).
    split; assumption.
  - apply (Htwo Examples.room_world_ok Examples.room_image 1600%Z 1600%Z
                Examples.room_box Examples.room_box [] [] []).
    reflexivity.
Defined.


(** ** Where a handle comes from *)

Section ResolverProvenance.
Variable find_model_path : string -> result (option Path).
Variable MODELS : gmap string string.
Variable fallback_ids : list string.
Variable YOLO : Path -> result Model.

Local Abbreviation load :=
  (load_model find_model_path MODELS fallback_ids YOLO).

Lemma first_available_in (ids : list string) (fallback_id : string) :
  first_available find_model_path ids = Ok (Some fallback_id) ->
  In fallback_id ids.
Proof.
  induction ids as [| i ids IH]; simpl; [discriminate |].
  destruct (find_model_path i) as [[p |] | e]; [| auto | discriminate].
  intros H. injection H as <-. auto.
Qed.

(** A handle returned was in the cache, or is what [YOLO] made of the
    weights found for the identifier asked for or for an identifier of the
    priority list. *)
Lemma load_model_provenance (depth : nat) :
  forall (model_id : string) (lm lm' : gmap string Model) (m : Model),
    load depth model_id lm = (Ok m, lm') ->
    (exists k, lm !! k = Some m)
    \/ exists k p,
        ((k = model_id /\ model_id <> "default") \/ In k fallback_ids)
        /\ find_model_path k = Ok (Some p) /\ YOLO p = Ok m.
Proof.
  induction depth as [| depth IH]; intros model_id lm lm' m H;
    [discriminate |].
  destruct (lm !! model_id) as [m0 |] eqn:Hc.
  { simpl in H. rewrite Hc in H. injection H as <- <-. eauto. }
  destruct (decide (model_id = "default")) as [-> | Hne].
  - rewrite load_model_default in H by exact Hc.
    destruct (first_available find_model_path fallback_ids) as [[fid |] | e0]
      eqn:Hfirst; [| discriminate | discriminate].
    apply first_available_in in Hfirst.
    destruct (IH _ _ _ _ H) as [Hcached | (k & p & Hk & Hp & Hy)];
      [left; exact Hcached |].
    right. exists k, p. split; [| auto].
    right. destruct Hk as [[-> _] | Hin]; assumption.
  - rewrite load_model_other in H by assumption.
    assert (Hdef : load depth "default" lm = (Ok m, lm') ->
                   (exists k, lm !! k = Some m)
                   \/ exists k p,
                       ((k = model_id /\ model_id <> "default")
                        \/ In k fallback_ids)
                       /\ find_model_path k = Ok (Some p) /\ YOLO p = Ok m).
    { intros Hd.
      destruct (IH _ _ _ _ Hd) as [Hcached | (k & p & Hk & Hp & Hy)];
        [left; exact Hcached |].
      right. exists k, p. split; [| auto].
      destruct Hk as [[_ Habs] | Hin]; [congruence | right; exact Hin]. }
    destruct (find_model_path model_id) as [[p |] | e0] eqn:Hp;
      [| auto | discriminate].
    destruct (YOLO p) as [m1 | e] eqn:Hy; [| auto].
    injection H as <- <-. right. exists model_id, p. auto.
Qed.
End ResolverProvenance.

Lemma roof_find_model_path_exists (W : Roof.World) (k : string) (p : Path) :
  Roof.find_model_path W k = Ok (Some p) -> Roof.path_exists W p = Ok true.
Proof.
  unfold Roof.find_model_path.
  destruct (Roof.BUNDLED_MODELS_PATH W) as [b |]; [| discriminate].
  destruct (Roof.path_exists W (b ++ [k; "weights"; "best.pt"]))
    as [[|] | e] eqn:E; simpl; [| discriminate | discriminate].
  intros H. injection H as <-. exact E.
Qed.

Lemma room_find_model_path_exists (W : Room.World) (k : string) (p : Path) :
  Room.find_model_path W k = Ok (Some p) -> Room.path_exists W p = Ok true.
Proof.
  unfold Room.find_model_path.
  destruct (Room.BUNDLED_MODELS_PATH W) as [b |]; simpl;
    repeat match goal with
           | |- context [Room.path_exists W ?q ≫= _] =>
             let E := fresh "E" in
             destruct (Room.path_exists W q) as [[|] | ?] eqn:E; simpl
           end;
    intros H; try discriminate; injection H as <-; assumption.
Qed.

(** X11: a handle [load_model] returns is one that was in the cache, or the
    one [YOLO] made from a weights file that [Path.exists] reported present,
    looked up for the identifier asked for or for one of the two identifiers
    of the priority list of ["default"]; no other identifier is ever
    loaded. *)
Theorem X11_handle_provenance :
  (forall (W : Roof.World) (depth : nat) (model_id : string)
          (lm lm' : gmap string Model) (m : Model),
      Roof.load_model W depth model_id lm = (Ok m, lm') ->
      (exists k, lm !! k = Some m)
      \/ exists k p,
          (k = model_id \/ k = "roof_damage_nano_300ep"
           \/ k = "roof_damage_small_200ep")
          /\ k <> "default"
          /\ Roof.find_model_path W k = Ok (Some p)
          /\ Roof.path_exists W p = Ok true
          /\ Roof.YOLO W p = Ok m)
  /\ (forall (W : Room.World) (depth : nat) (model_id : string)
             (lm lm' : gmap string Model) (m : Model),
         Room.load_model W depth model_id lm = (Ok m, lm') ->
         (exists k, lm !! k = Some m)
         \/ exists k p,
             (k = model_id \/ k = "room-detect-1class-20ep"
              \/ k = "room-detect-2class-20ep")
             /\ k <> "default"
             /\ Room.find_model_path W k = Ok (Some p)
             /\ Room.path_exists W p = Ok true
             /\ Room.YOLO W p = Ok m).
Proof.
  split.
  - intros W depth model_id lm lm' m H.
    destruct (load_model_provenance _ _ _ _ _ _ _ _ _ H)
      as [Hc | (k & p & Hk & Hp & Hy)]; [left; exact Hc |].
    right. exists k, p.
    repeat split; try assumption;
      [| | apply (roof_find_model_path_exists W k); exact Hp].
    + destruct Hk as [[-> _] | [<- | [<- | []]]]; auto.
    + destruct Hk as [[-> Hne] | [<- | [<- | []]]];
        [exact Hne | discriminate | discriminate].
  - intros W depth model_id lm lm' m H.
    destruct (load_model_provenance _ _ _ _ _ _ _ _ _ H)
      as [Hc | (k & p & Hk & Hp & Hy)]; [left; exact Hc |].
    right. exists k, p.
    repeat split; try assumption;
      [| | apply (room_find_model_path_exists W k); exact Hp].
    + destruct Hk as [[-> _] | [<- | [<- | []]]]; auto.
    + destruct Hk as [[-> Hne] | [<- | [<- | []]]];
        [exact Hne | discriminate | discriminate].
Qed.

Lemma X11_handle_provenance_witness :
  (exists k, (∅ : gmap string Model) !! k = Some (YoloModel 1))
  \/ exists k p,
      (k = "my_custom_model" \/ k = "roof_damage_nano_300ep"
       \/ k = "roof_damage_small_200ep")
      /\ k <> "default"
      /\ Roof.find_model_path Examples.roof_world_ok k = Ok (Some p)
      /\ Roof.path_exists Examples.roof_world_ok p = Ok true
      /\ Roof.YOLO Examples.roof_world_ok p = Ok (YoloModel 1).
Proof.
  destruct X11_handle_provenance as [Hroof _].
  apply (Hroof Examples.roof_world_ok 3%nat "my_custom_model" ∅
               {[ "roof_damage_nano_300ep" := YoloModel 1 ]}).
  reflexivity.
Defined.


(** ** The least and the most an estimate can be *)






(** ** The mock fallback of the room service can be told apart *)

(** X13: in the room service the annotated image of a response is null
    exactly when something was raised inside [perform_inference], and then
    the detections are the two mock ones; a response made from the
    detector's results always carries an annotated image. *)
Theorem X13_null_image_marks_the_mock
        (W : Room.World) (image_data : bytes) (model_id : string)
        (loaded_models : gmap string Model) :
  let r := (Room.perform_inference W image_data model_id loaded_models).1 in
  (Room.annotated_image r = None
   <-> raises (Room.try_inference W image_data model_id loaded_models).1
       = true)
  /\ (Room.annotated_image r = None ->
      Room.detections r = Room.get_mock_results image_data).
Proof.
  intros r. subst r.
  pose proof (room_perform_inference_cases W image_data model_id
                                           loaded_models) as Hcases.
  destruct (Room.try_inference W image_data model_id loaded_models)
    as [[response | e] lm] eqn:Htry; simpl in *.
  - rewrite Hcases.
    destruct (try_inference_ok _ _ _ _ _ _ Htry)
      as (image & model & results & png & _ & _ & _ & ->).
    simpl. split; [split; discriminate | discriminate].
  - rewrite Hcases. simpl. split; [split; reflexivity | reflexivity].
Qed.


(** ** A request that goes through *)

(** X14: the damage service on a request laid out as prefix, identifier,
    threshold, image, when the identifier resolves to a model, the image
    decodes and the detector returns results: the detector is run with the
    four threshold bytes of the request on the image decoded from the image
    bytes of the request, and the one document printed is the success
    document, with one detection per box of the first result, in order, the
    heuristic estimate of these detections, the dimensions of the image and
    the overlay of the first result (null when it cannot be rendered). *)
Theorem X14_damage_request_goes_through
        (W : Roof.World) (prefix id_bytes threshold image_data : bytes)
        (model : Model) (pil_image : Roof.PILImage) (shape : list Z)
        (img_height img_width : Z) (r : Roof.Results)
        (others : list Roof.Results) :
  length prefix = 4%nat ->
  int_from_bytes_big prefix = N.of_nat (length id_bytes) ->
  utf8_valid id_bytes = true ->
  length threshold = 4%nat ->
  image_data <> [] ->
  (Roof.load_model W (Roof.recursion_limit W) (Spec.model_id_of id_bytes)
                   ∅).1 = Ok model ->
  Roof.Image_open W image_data = Ok pil_image ->
  Roof.np_array_shape W pil_image = Ok shape ->
  Roof.image_dimensions shape = Ok (img_height, img_width) ->
  Roof.model_call W model pil_image (Roof.Float32 threshold)
  = Ok (r :: others) ->
  Roof.main W (prefix ++ id_bytes ++ threshold ++ image_data)
  = [Roof.json_of_response
       {| Roof.detections :=
            map (Roof.parse_box img_width img_height) (Roof.boxes r);
          Roof.cost_estimate :=
            Roof.estimate_cost
              (map (Roof.parse_box img_width img_height) (Roof.boxes r));
          Roof.image_width := img_width;
          Roof.image_height := img_height;
          Roof.annotated_image :=
            match Roof.plot_png_base64 W r with
            | Ok base64 => Some base64
            | Raise _ => None
            end |}].
Proof.
  intros Hlen Hpre Hv Hthr Himg Hload Hopen Hshape Hdims Hcall.
  unfold Roof.main.
  rewrite (roof_read_request_framed _ _ _ _ Hlen Hpre Hv Hthr Himg). simpl.
  unfold Roof.perform_inference.
  destruct (Roof.load_model W (Roof.recursion_limit W)
                            (Spec.model_id_of id_bytes) ∅) as [loaded lm].
  simpl in Hload. subst loaded. simpl.
  rewrite Hopen. simpl. rewrite Hshape. simpl. rewrite Hdims. simpl.
  rewrite Hcall. reflexivity.
Qed.

Lemma X14_damage_request_goes_through_witness :
  Roof.main Examples.roof_world_ok Examples.roof_request_ab
  = [Roof.json_of_response
       {| Roof.detections := map (Roof.parse_box 640 480) [Examples.roof_box];
          Roof.cost_estimate :=
            Roof.estimate_cost (map (Roof.parse_box 640 480)
                                    [Examples.roof_box]);
          Roof.image_width := 640;
          Roof.image_height := 480;
          Roof.annotated_image := Some "iVBORw0KGgo=" |}].
Proof.
  apply (X14_damage_request_goes_through
           Examples.roof_world_ok (Examples.prefix_of x02) Examples.id_ab
           Examples.threshold_bytes Examples.image_bytes (YoloModel 1)
           Examples.roof_image [480; 640; 3]%Z 480 640
           {| Roof.boxes := [Examples.roof_box]; Roof.results_uid := 1 |} []);
    try reflexivity.
  discriminate.
Defined.

Lemma process_boxes_succeeds (W : Room.World) (image : Room.PILImage)
      (img_width img_height : Z) (font : Room.Font) (boxes : list Room.Box) :
  img_width <> 0%Z -> img_height <> 0%Z ->
  (forall b, Room.draw_rectangle W image b = Ok tt) ->
  match Room.ImageFont_truetype W with
  | Ok f => Ok f
  | Raise _ => Room.ImageFont_load_default W
  end = Ok font ->
  (forall pos label f, Room.draw_text W image pos label f = Ok tt) ->
  forall i : nat,
    Room.process_boxes W image img_width img_height i boxes
    = Ok (imap (fun j => RoomSpec.detection_of img_width img_height (i + j))
               boxes).
Proof.
  intros Hw Hh Hrect Hfont Htext.
  induction boxes as [| box rest IH]; intros i; [reflexivity |].
  cbn [Room.process_boxes].
  assert (Hbox : Room.process_box W image img_width img_height i box
                 = Ok (RoomSpec.detection_of img_width img_height i box)).
  { unfold Room.process_box, RoomSpec.detection_of,
      RoomSpec.normalize_truncated, Room.normalize, Room.float_div.
    destruct (Room.xyxy box) as [[[x1 y1] x2] y2].
    rewrite Hrect. simpl. rewrite Hfont. simpl. rewrite Htext. simpl.
    destruct (Z.eqb_spec img_width 0) as [| _]; [contradiction |].
    destruct (Z.eqb_spec img_height 0) as [| _]; [contradiction |].
    reflexivity. }
  rewrite Hbox, (IH (S i)). simpl. rewrite Nat.add_0_r. do 2 f_equal.
  apply imap_ext. intros j x _. simpl. f_equal. lia.
Qed.

Lemma process_results_succeeds (W : Room.World) (image : Room.PILImage)
      (img_width img_height : Z) (font : Room.Font)
      (results : list Room.Results) :
  img_width <> 0%Z -> img_height <> 0%Z ->
  (forall b, Room.draw_rectangle W image b = Ok tt) ->
  match Room.ImageFont_truetype W with
  | Ok f => Ok f
  | Raise _ => Room.ImageFont_load_default W
  end = Ok font ->
  (forall pos label f, Room.draw_text W image pos label f = Ok tt) ->
  Room.process_results W image img_width img_height results
  = Ok (RoomSpec.detections_of img_width img_height results).
Proof.
  intros Hw Hh Hrect Hfont Htext.
  induction results as [| r rest IH]; [reflexivity |].
  cbn [Room.process_results]. rewrite IH.
  destruct (Room.boxes r) as [bs |] eqn:Hbs.
  - rewrite (process_boxes_succeeds W image _ _ font bs Hw Hh Hrect Hfont
                                    Htext 0).
    simpl. unfold RoomSpec.detections_of. cbn [flat_map]. rewrite Hbs.
    reflexivity.
  - simpl. unfold RoomSpec.detections_of. cbn [flat_map]. rewrite Hbs.
    reflexivity.
Qed.

(** X15: the room service on a request laid out as prefix, identifier,
    image, when the image decodes to a non-empty size, the identifier
    resolves, the detector returns results, a font can be had (the TrueType
    one or else the default one) and drawing and saving work: the one
    document printed is the success document, with the detections of the
    results (truncated coordinates, identifiers numbered within each result)
    and the annotated image that was saved. *)
Theorem X15_room_request_goes_through
        (W : Room.World) (prefix id_bytes image_data : bytes)
        (image : Room.PILImage) (model : Model) (font : Room.Font)
        (results : list Room.Results) (png : string) :
  length prefix = 4%nat ->
  int_from_bytes_big prefix = N.of_nat (length id_bytes) ->
  utf8_valid id_bytes = true ->
  image_data <> [] ->
  Room.Image_open W image_data = Ok image ->
  (Room.size image).1 <> 0%Z -> (Room.size image).2 <> 0%Z ->
  (Room.load_model W (Room.recursion_limit W) (Spec.model_id_of id_bytes)
                   ∅).1 = Ok model ->
  Room.model_call W model image = Ok results ->
  (forall b, Room.draw_rectangle W image b = Ok tt) ->
  match Room.ImageFont_truetype W with
  | Ok f => Ok f
  | Raise _ => Room.ImageFont_load_default W
  end = Ok font ->
  (forall pos label f, Room.draw_text W image pos label f = Ok tt) ->
  Room.save_png_base64 W image results = Ok png ->
  Room.main W (prefix ++ id_bytes ++ image_data)
  = [Room.json_of_response
       {| Room.detections :=
            RoomSpec.detections_of (Room.size image).1 (Room.size image).2
                                   results;
          Room.annotated_image := Some png |}].
Proof.
  intros Hlen Hpre Hv Himg Hopen Hw Hh Hload Hcall Hrect Hfont Htext Hsave.
  unfold Room.main.
  rewrite (room_read_request_framed _ _ _ Hlen Hpre Hv Himg). simpl.
  unfold Room.perform_inference, Room.try_inference.
  rewrite Hopen. destruct (Room.size image) as [w h]. simpl in Hw, Hh.
  destruct (Room.load_model W (Room.recursion_limit W)
                            (Spec.model_id_of id_bytes) ∅) as [loaded lm].
  simpl in Hload. subst loaded. simpl.
  rewrite Hcall. simpl.
  rewrite (process_results_succeeds W image w h font results Hw Hh Hrect
                                    Hfont Htext).
  simpl. rewrite Hsave. reflexivity.
Qed.

Lemma X15_room_request_goes_through_witness :
  Room.main Examples.room_world_ok Examples.room_request_ab
  = [Room.json_of_response
       {| Room.detections :=
            RoomSpec.detections_of 1600 1600 Examples.room_results;
          Room.annotated_image := Some "iVBORw0KGgo=" |}].
Proof.
  apply (X15_room_request_goes_through
           Examples.room_world_ok (Examples.prefix_of x02) Examples.id_ab
           Examples.image_bytes Examples.room_image (YoloModel 1)
           Room.DefaultFont Examples.room_results "iVBORw0KGgo=");
    try reflexivity; try discriminate.
Defined.

Close Scope Q_scope.

(** ** The stack depth does not matter *)




